(** * meto_app: the weather ingestion, window query and report pipeline

    A shallow embedding of [src/meto_app.py].  The program is a small web
    service: [weather_report] fetches hourly observations and stores them
    in the SQLite table [weather]; [fetch_last_48h] reads the rows of the
    last 48 hours; [export_pdf] turns them into a document.

    What lives outside the process is made explicit: the table is a value
    passed in and returned, the reply of the forecast provider and the
    readings of the clock are arguments.  Python exceptions are the
    [Raise] results of an error monad. *)

From Stdlib Require Import ZArith List String Ascii Bool Lia.
From Stdlib Require Import Permutation Sorted Orders Mergesort.
From Stdlib Require Import DecimalString.
From Stdlib Require Import Floats.SpecFloat.
Import ListNotations.

Local Open Scope string_scope.
Local Open Scope Z_scope.

(** ** Exceptions and the error monad *)

(** The exceptions the modelled code can raise.  [HTTPException] is the
    one the program raises itself; the others come from the interpreter
    and the libraries.  [BindError] is sqlite3's refusal of a parameter
    it has no storage class for. *)
Inductive exn : Type :=
  | HTTPException (status_code : Z) (detail : string)
  | TypeError
  | ValueError
  | AttributeError
  | KeyError
  | IndexError
  | OverflowError
  | BindError
  | RequestException
  | JSONDecodeError.

Inductive result (A : Type) : Type :=
  | Ok (a : A)
  | Raise (e : exn).

Arguments Ok {A} a.
Arguments Raise {A} e.

Definition bind {A B : Type} (m : result A) (k : A -> result B) : result B :=
  match m with
  | Ok a => k a
  | Raise e => Raise e
  end.

Notation "x <- m ;; k" := (bind m (fun x => k))
  (at level 61, m at next level, right associativity).
Notation "' p <- m ;; k" := (bind m (fun x => match x with p => k end))
  (at level 61, p pattern, m at next level, right associativity).

(** The list comprehension [[f(i) for i in xs]]: elements are evaluated
    left to right and the first exception ends the evaluation. *)
Fixpoint comprehension {A B : Type} (f : A -> result B) (xs : list A)
  : result (list B) :=
  match xs with
  | [] => Ok []
  | x :: rest =>
      y <- f x ;;
      ys <- comprehension f rest ;;
      Ok (y :: ys)
  end.

(** ** Numbers and text *)

(** A Python [float] is an IEEE 754 binary64 value. *)
Definition float : Type := spec_float.

Definition prec : Z := 53.
Definition emax : Z := 1024.

Definition is_nan (f : float) : bool :=
  match f with
  | S754_nan => true
  | _ => false
  end.


(** [m * 2^e] rounded to the nearest binary64 value, ties to even. *)
Definition float_of_scaled (m e : Z) : float :=
  binary_normalize prec emax m e false.

(** [float(n)] for an [int]: the nearest float, [OverflowError] when that
    is out of range. *)
Definition float_of_int (n : Z) : result float :=
  match float_of_scaled n 0 with
  | S754_infinity _ => Raise OverflowError
  | f => Ok f
  end.

(** [str(n)] for an [int]. *)
Definition str_of_int (n : Z) : string :=
  NilZero.string_of_int (Z.to_int n).

(** ** Python values

    What [resp.json()] returns.  A [str] is a sequence of code points; the
    model has the code points below 256, one per character, for which
    [len], indexing and the byte order SQLite compares text in (UTF-8
    keeps the order of code points) are those of [string].  A [dict] is
    its list of items, one per key. *)
#[local] Set Warnings "-register-all".
Inductive pyval : Type :=
  | JNull
  | JBool (b : bool)
  | JInt (n : Z)
  | JFloat (f : float)
  | JStr (s : string)
  | JArr (items : list pyval)
  | JObj (items : list (string * pyval)).

(** Truth value testing, as in [if not hourly]. *)
Definition truthy (v : pyval) : bool :=
  match v with
  | JNull => false
  | JBool b => b
  | JInt n => negb (n =? 0)
  | JFloat (S754_zero _) => false
  | JFloat _ => true
  | JStr s => negb (String.eqb s "")
  | JArr items => negb (Nat.eqb (List.length items) 0)
  | JObj items => negb (Nat.eqb (List.length items) 0)
  end.

Fixpoint lookup (k : string) (items : list (string * pyval)) : option pyval :=
  match items with
  | [] => None
  | (k', v) :: rest => if String.eqb k k' then Some v else lookup k rest
  end.

(** [d.get(k, default)]; only a [dict] has the method. *)
Definition py_get (d : pyval) (k : string) (default : pyval) : result pyval :=
  match d with
  | JObj items =>
      match lookup k items with
      | Some v => Ok v
      | None => Ok default
      end
  | _ => Raise AttributeError
  end.

(** [len(v)]. *)
Definition py_len (v : pyval) : result nat :=
  match v with
  | JArr items => Ok (List.length items)
  | JObj items => Ok (List.length items)
  | JStr s => Ok (String.length s)
  | _ => Raise TypeError
  end.

(** [v[i]] for [i] in [range(n)], so never negative.  The keys of a
    [dict] read from JSON are strings: an [int] subscript is no key. *)
Definition py_index (v : pyval) (i : nat) : result pyval :=
  match v with
  | JArr items =>
      match nth_error items i with
      | Some x => Ok x
      | None => Raise IndexError
      end
  | JStr s =>
      match String.get i s with
      | Some c => Ok (JStr (String c ""))
      | None => Raise IndexError
      end
  | JObj _ => Raise KeyError
  | _ => Raise TypeError
  end.

(** ** Dates and times

    The part of Python's [datetime] the program uses: the proleptic
    Gregorian calendar with day 1 on 0001-01-01, the subtraction of a
    [timedelta] of whole hours, [isoformat] and [strftime]. *)
Module Datetime.

Record datetime : Type := mk_datetime {
  year : Z;
  month : Z;
  day : Z;
  hour : Z;
  minute : Z;
  second : Z;
  microsecond : Z
}.

Definition MAXORDINAL : Z := 3652059.

Definition is_leap (y : Z) : bool :=
  (y mod 4 =? 0) && (negb (y mod 100 =? 0) || (y mod 400 =? 0)).

Definition days_before_year (y : Z) : Z :=
  let y1 := y - 1 in
  y1 * 365 + y1 / 4 - y1 / 100 + y1 / 400.

Definition DAYS_IN_MONTH : list Z :=
  [-1; 31; 28; 31; 30; 31; 30; 31; 31; 30; 31; 30; 31].

Definition DAYS_BEFORE_MONTH : list Z :=
  [-1; 0; 31; 59; 90; 120; 151; 181; 212; 243; 273; 304; 334].

Definition table_at (t : list Z) (m : Z) : Z := nth (Z.to_nat m) t 0.

Definition days_in_month (y m : Z) : Z :=
  if (m =? 2) && is_leap y then 29 else table_at DAYS_IN_MONTH m.

Definition days_before_month (y m : Z) : Z :=
  table_at DAYS_BEFORE_MONTH m + (if (2 <? m) && is_leap y then 1 else 0).

Definition ymd2ord (y m d : Z) : Z :=
  days_before_year y + days_before_month y m + d.

Definition DI400Y : Z := 146097.
Definition DI100Y : Z := 36524.
Definition DI4Y : Z := 1461.

Definition ord2ymd (n0 : Z) : Z * Z * Z :=
  let n := n0 - 1 in
  let n400 := n / DI400Y in
  let n := n mod DI400Y in
  let y := n400 * 400 + 1 in
  let n100 := n / DI100Y in
  let n := n mod DI100Y in
  let n4 := n / DI4Y in
  let n := n mod DI4Y in
  let n1 := n / 365 in
  let n := n mod 365 in
  let y := y + n100 * 100 + n4 * 4 + n1 in
  if (n1 =? 4) || (n100 =? 4) then (y - 1, 12, 31)
  else
    let leapyear := (n1 =? 3) && (negb (n4 =? 24) || (n100 =? 3)) in
    let m := Z.shiftr (n + 50) 5 in
    let preceding :=
      table_at DAYS_BEFORE_MONTH m + (if (2 <? m) && leapyear then 1 else 0) in
    if n <? preceding then
      let m' := m - 1 in
      let preceding' :=
        preceding
        - (table_at DAYS_IN_MONTH m' + (if (m' =? 2) && leapyear then 1 else 0)) in
      (y, m', n - preceding' + 1)
    else (y, m, n - preceding + 1).

Definition toordinal (d : datetime) : Z := ymd2ord (year d) (month d) (day d).

(** [d - timedelta(hours=h)]: the days and the seconds of the day are
    renormalised, the microseconds stay; a date outside years 1..9999
    raises [OverflowError]. *)
Definition sub_hours (d : datetime) (h : Z) : result datetime :=
  let secs := hour d * 3600 + minute d * 60 + second d - h * 3600 in
  let days := toordinal d + secs / 86400 in
  let s := secs mod 86400 in
  if (0 <? days) && (days <=? MAXORDINAL) then
    let '(y, m, dd) := ord2ymd days in
    Ok (mk_datetime y m dd (s / 3600) ((s mod 3600) / 60) (s mod 60)
          (microsecond d))
  else Raise OverflowError.

(** [d.replace(microsecond=0)]. *)
Definition replace_microsecond0 (d : datetime) : datetime :=
  mk_datetime (year d) (month d) (day d) (hour d) (minute d) (second d) 0.

Fixpoint zeros (n : nat) : string :=
  match n with
  | O => ""
  | S k => String "0" (zeros k)
  end.

(** [%0wd] for a number that is not negative. *)
Definition pad (w : nat) (n : Z) : string :=
  let s := str_of_int n in
  zeros (w - String.length s) ++ s.

(** [d.isoformat()] of a datetime whose zone is UTC. *)
Definition isoformat_utc (d : datetime) : string :=
  pad 4 (year d) ++ "-" ++ pad 2 (month d) ++ "-" ++ pad 2 (day d) ++ "T"
  ++ pad 2 (hour d) ++ ":" ++ pad 2 (minute d) ++ ":" ++ pad 2 (second d)
  ++ (if microsecond d =? 0 then "" else "." ++ pad 6 (microsecond d))
  ++ "+00:00".

(** [d.strftime('%Y-%m-%d %H:%M UTC')]; years from 1000 on, for which
    every platform prints the four digits. *)
Definition strftime_minutes (d : datetime) : string :=
  pad 4 (year d) ++ "-" ++ pad 2 (month d) ++ "-" ++ pad 2 (day d) ++ " "
  ++ pad 2 (hour d) ++ ":" ++ pad 2 (minute d) ++ " UTC".

End Datetime.

Import Datetime.

(** ** The table [weather]

    [init_db] creates the table with the columns [timestamp TEXT NOT NULL],
    [temperature], [humidity], [latitude], [longitude] (all [REAL]) and
    [UNIQUE(timestamp, latitude, longitude)].  A row of the model has the
    five columns the program reads; the [id] column, which no statement of
    the program mentions, is the position in the list: rows are kept in
    the order of their insertion.  A cell of a [REAL] column is [None]
    for NULL. *)
Record row : Type := mk_row {
  timestamp : string;
  temperature : option float;
  humidity : option float;
  latitude : option float;
  longitude : option float
}.

Definition table : Type := list row.

(** [CREATE TABLE IF NOT EXISTS]: a table that exists is left as it is. *)
Definition init_db (existing : option table) : table :=
  match existing with
  | Some t => t
  | None => []
  end.

(** The values sqlite3 binds to the parameters of a statement. *)
Inductive sqlval : Type :=
  | SqlNull
  | SqlInteger (n : Z)
  | SqlReal (f : float)
  | SqlText (s : string).

(** A [float] parameter: SQLite has no NaN and stores NULL for it. *)
Definition bind_float (f : float) : sqlval :=
  if is_nan f then SqlNull else SqlReal f.

(** A parameter of any Python type: [None], [int] (with [bool]), [float]
    and [str] have a storage class, an [int] has to fit 64 bits, other
    types are refused. *)
Definition bind_param (v : pyval) : result sqlval :=
  match v with
  | JNull => Ok SqlNull
  | JBool b => Ok (SqlInteger (if b then 1 else 0))
  | JInt n =>
      if (- 2 ^ 63 <=? n) && (n <? 2 ^ 63) then Ok (SqlInteger n)
      else Raise OverflowError
  | JFloat f => Ok (bind_float f)
  | JStr s => Ok (SqlText s)
  | JArr _ | JObj _ => Raise BindError
  end.

(** The cell of a [REAL] column for a bound [float]. *)
Definition real_cell (v : sqlval) : option float :=
  match v with
  | SqlReal f => Some f
  | _ => None
  end.

(** Equality of two [REAL] cells as SQLite evaluates it, in the unique
    index and in [latitude = ?]: numbers are compared by value and a NULL
    is equal to nothing, not even to another NULL. *)
Definition real_eq (a b : option float) : bool :=
  match a, b with
  | Some x, Some y => SFeqb x y
  | _, _ => false
  end.

(** [new] has the key of the stored row [old]. *)
Definition conflicts (old new : row) : bool :=
  String.eqb (timestamp old) (timestamp new)
  && real_eq (latitude old) (latitude new)
  && real_eq (longitude old) (longitude new).

(** What a [REAL] column gives back for a number written to it.  SQLite
    writes a float that has no fractional part as an integer and turns it
    into a float again when the row is read: every number comes back as
    it was but the negative zero, which comes back as 0.0. *)
Definition real_as_stored (f : float) : float :=
  match f with
  | S754_zero _ => S754_zero false
  | _ => f
  end.

(** The cell of a [REAL] column for a [float] parameter. *)
Definition stored_cell (f : float) : option float :=
  real_cell (bind_float (real_as_stored f)).

(** The row stored for a timestamp text and four [float] parameters. *)
Definition stored_row (s : string) (temp hum la lo : float) : row :=
  mk_row s (stored_cell temp) (stored_cell hum) (stored_cell la)
    (stored_cell lo).

(** [ORDER BY timestamp ASC] compares text byte by byte. *)
Module RowOrder <: TotalLeBool.
Definition t : Type := row.
Definition leb (a b : row) : bool := String.leb (timestamp a) (timestamp b).
Definition leb_total (a b : row) : leb a b = true \/ leb b a = true :=
  String.leb_total (timestamp a) (timestamp b).
End RowOrder.

Module RowSort := Sort RowOrder.

(** The two [SELECT] statements of [fetch_last_48h].  SQLite leaves the
    order of rows with equal timestamps open; the model sorts the rows
    and the statements below say nothing about such ties. *)
Definition select_since (since_iso : string) (t : table) : list row :=
  RowSort.sort
    (filter (fun r => String.leb since_iso (timestamp r)) t).

Definition select_since_at (since_iso : string) (lat lon : float) (t : table)
  : list row :=
  RowSort.sort
    (filter (fun r =>
       String.leb since_iso (timestamp r)
       && real_eq (latitude r) (real_cell (bind_float lat))
       && real_eq (longitude r) (real_cell (bind_float lon))) t).

(** [fetch_last_48h(lat, lon)]; [now_utc] is what
    [datetime.now(timezone.utc)] returns. *)
Definition fetch_last_48h (lat lon : option float) (now_utc : datetime)
    (db : table) : result (list row) :=
  since <- sub_hours now_utc 48 ;;
  let since_iso := isoformat_utc (replace_microsecond0 since) in
  match lat, lon with
  | Some la, Some lo => Ok (select_since_at since_iso la lo db)
  | _, _ => Ok (select_since since_iso db)
  end.

(** ** What the endpoints return *)

(** The dictionary [weather_report] returns. *)
Record ingest_report : Type := mk_ingest_report {
  message : string;
  location : float * float;
  requested_records : Z;
  db_inserted_rows : Z
}.

(** The chart of [export_pdf]: two lines over the parsed [timestamp]
    column, temperature on the left axis and humidity on the right one.
    pandas parses the column when the chart is drawn ([errors="coerce"]
    turns text it cannot read into a gap), so the chart holds the columns
    as they were read. *)
Record chart : Type := mk_chart {
  time_axis : list string;
  temperature_line : list (option float);
  humidity_line : list (option float)
}.

Inductive style : Type := Title | Normal.

(** The flowables of a ReportLab story. *)
Inductive flowable : Type :=
  | Paragraph (text : string) (st : style)
  | Spacer (width height : Z)
  | Image (c : chart) (width height : Z).

(** The response of an export: the story the document is built from
    stands for the bytes [doc.build] writes. *)
Record response : Type := mk_response {
  content : list flowable;
  media_type : string;
  headers : list (string * string)
}.

(** The reply of the forecast provider to [requests.get]. *)
Inductive http_reply : Type :=
  | ConnectionFailed
  | Reply (status_code : Z) (json : option pyval).

(** Three functions of the interpreter and of SQLite that the model
    leaves open: [float(s)] for a [str] ([None] when it raises
    [ValueError]), [repr(x)] for a [float], and the text SQLite stores
    when a [REAL] value meets a [TEXT] column. *)
Class Runtime : Type := {
  float_of_str : string -> option float;
  float_repr : float -> string;
  real_to_text : float -> string
}.

Section Service.

Context {rt : Runtime}.

(** [float(v)]. *)
Definition py_float (v : pyval) : result float :=
  match v with
  | JNull => Raise TypeError
  | JBool b => Ok (float_of_scaled (if b then 1 else 0) 0)
  | JInt n => float_of_int n
  | JFloat f => Ok f
  | JStr s =>
      match float_of_str s with
      | Some f => Ok f
      | None => Raise ValueError
      end
  | JArr _ | JObj _ => Raise TypeError
  end.

(** The cell of the [TEXT] column for a bound value; [None] is NULL. *)
Definition text_cell (v : sqlval) : option string :=
  match v with
  | SqlNull => None
  | SqlInteger n => Some (str_of_int n)
  | SqlReal f => Some (real_to_text f)
  | SqlText s => Some s
  end.

(** A tuple of [rows], typed as the annotation of [insert_weather_rows]
    has it but for the timestamp, which [weather_report] passes as it
    came from the provider. *)
Definition record : Type := pyval * float * float * float * float.

(** One [INSERT OR IGNORE]: a row that breaks [NOT NULL] or the unique
    index is left out and the statement succeeds.  The second component
    is the number of rows changed. *)
Definition insert_or_ignore (ts : sqlval) (temp hum la lo : float) (t : table)
  : table * Z :=
  match text_cell ts with
  | None => (t, 0)
  | Some s =>
      let new := stored_row s temp hum la lo in
      if existsb (fun old => conflicts old new) t then (t, 0)
      else ((t ++ [new])%list, 1)
  end.

(** [cur.executemany]: the statement is run for one tuple after the
    other; [changes] counts the rows inserted on the connection. *)
Fixpoint executemany (rows : list record) (t : table) (changes : Z)
  : result (table * Z) :=
  match rows with
  | [] => Ok (t, changes)
  | (ts, temp, hum, la, lo) :: rest =>
      v <- bind_param ts ;;
      let '(t', n) := insert_or_ignore v temp hum la lo t in
      executemany rest t' (changes + n)
  end.

(** [insert_weather_rows(rows)] on a fresh connection.  When a parameter
    cannot be bound the exception leaves the function before
    [conn.commit()], and the table stays as it was: a [Raise] carries no
    table.  The connection such an exception leaves open, and what it
    does to a later call, are outside the model. *)
Definition insert_weather_rows (rows : list record) (db : table)
  : result (Z * table) :=
  '(db', total_changes) <- executemany rows db 0 ;;
  Ok (total_changes, db').

(** [fetch_open_meteo]: one request, no retry. *)
Definition fetch_open_meteo (lat lon : float) (past_days : Z)
    (timezone_str : string) (reply : http_reply) : result pyval :=
  match reply with
  | ConnectionFailed => Raise RequestException
  | Reply status_code json =>
      if negb (status_code =? 200) then
        Raise (HTTPException 502
                 ("Open-Meteo API error: " ++ str_of_int status_code))
      else
        match json with
        | Some data => Ok data
        | None => Raise JSONDecodeError
        end
  end.

Definition min3 (a b c : nat) : nat := Nat.min (Nat.min a b) c.

(** Lines 119 to 127 of [weather_report]: the three sequences of
    [hourly], cut to the shortest and zipped into tuples. *)
Definition hourly_rows (lat lon : float) (hourly : pyval)
  : result (list record) :=
  times <- py_get hourly "time" (JArr []) ;;
  temps <- py_get hourly "temperature_2m" (JArr []) ;;
  hums <- py_get hourly "relative_humidity_2m" (JArr []) ;;
  n_times <- py_len times ;;
  n_temps <- py_len temps ;;
  n_hums <- py_len hums ;;
  let length := min3 n_times n_temps n_hums in
  comprehension
    (fun i =>
       ts <- py_index times i ;;
       temp_i <- py_index temps i ;;
       temp <- py_float temp_i ;;
       hum_i <- py_index hums i ;;
       hum <- py_float hum_i ;;
       Ok (ts, temp, hum, lat, lon))
    (seq 0 length).

Definition stored_message : string := "Weather data fetched and stored.".

Definition missing_hourly : exn :=
  HTTPException 502 "Open-Meteo response missing 'hourly' key.".

(** The endpoint [/weather-report]. *)
Definition weather_report (lat lon : float) (reply : http_reply) (db : table)
  : result (ingest_report * table) :=
  data <- fetch_open_meteo lat lon 2 "UTC" reply ;;
  hourly <- py_get data "hourly" JNull ;;
  if negb (truthy hourly) then Raise missing_hourly
  else
    rows <- hourly_rows lat lon hourly ;;
    '(inserted, db') <- insert_weather_rows rows db ;;
    Ok (mk_ingest_report stored_message (lat, lon)
          (Z.of_nat (List.length rows)) inserted,
        db').

(** [lat and lon] as a condition. *)
Definition both_truthy (lat lon : option float) : bool :=
  match lat, lon with
  | Some la, Some lo => truthy (JFloat la) && truthy (JFloat lo)
  | _, _ => false
  end.

Definition pdf_headers : list (string * string) :=
  [("Content-Disposition", "attachment; filename=weather_report.pdf")].

(** The endpoint [/export/pdf]; [now_utc] is the clock as
    [fetch_last_48h] reads it, [utcnow] the later reading of
    [datetime.utcnow()]. *)
Definition export_pdf (lat lon : option float) (now_utc utcnow : datetime)
    (db : table) : result response :=
  rows <- fetch_last_48h lat lon now_utc db ;;
  match rows with
  | [] =>
      let story :=
        [Paragraph "Weather Report" Title;
         Paragraph "No data available for last 48 hours." Normal] in
      Ok (mk_response story "application/pdf" pdf_headers)
  | _ :: _ =>
      let chart_buf :=
        mk_chart (map timestamp rows) (map temperature rows)
          (map humidity rows) in
      since <- sub_hours utcnow 48 ;;
      let date_range :=
        strftime_minutes since ++ " to " ++ strftime_minutes utcnow in
      let location :=
        match lat, lon with
        | Some la, Some lo =>
            if both_truthy lat lon then
              "lat=" ++ float_repr la ++ ", lon=" ++ float_repr lo
            else "All locations"
        | _, _ => "All locations"
        end in
      let story :=
        [Paragraph "Weather Report" Title;
         Spacer 1 12;
         Paragraph ("<b>Location:</b> " ++ location) Normal;
         Paragraph ("<b>Date range:</b> " ++ date_range) Normal;
         Spacer 1 20;
         Image chart_buf 500 250] in
      Ok (mk_response story "application/pdf" pdf_headers)
  end.

End Service.

(** ** The notions the properties are stated with *)

(** Two rows have the same natural key. *)
Definition same_key (a b : row) : Prop :=
  timestamp a = timestamp b
  /\ latitude a = latitude b
  /\ longitude a = longitude b.

(** No two rows of the table, at different positions, have the same key. *)
Definition key_unique (t : table) : Prop :=
  forall i j a b,
    nth_error t i = Some a -> nth_error t j = Some b ->
    same_key a b -> i = j.

(** Both coordinates of the row are numbers, none is NULL. *)
Definition located (r : row) : Prop :=
  latitude r <> None /\ longitude r <> None.

(** The tables the program can build: the empty table of [init_db] and
    whatever successful calls of [insert_weather_rows] make of it. *)
Inductive reachable {rt : Runtime} : table -> Prop :=
  | reachable_init : reachable (init_db None)
  | reachable_insert : forall db rows n db',
      reachable db ->
      insert_weather_rows rows db = Ok (n, db') ->
      reachable db'.

(** Reading decimal fields at fixed places of a text. *)
Definition digit_of (c : ascii) : option Z :=
  let n := Z.of_N (N_of_ascii c) in
  if (48 <=? n) && (n <=? 57) then Some (n - 48) else None.

Fixpoint number_of (s : string) (acc : Z) : option Z :=
  match s with
  | EmptyString => Some acc
  | String c rest =>
      match digit_of c with
      | Some d => number_of rest (acc * 10 + d)
      | None => None
      end
  end.

Definition field (s : string) (start len : nat) : option Z :=
  let f := substring start len s in
  if Nat.eqb (String.length f) len then number_of f 0 else None.

Definition is_utc_suffix (s : string) : bool :=
  String.eqb s "" || String.eqb s "Z" || String.eqb s "+00:00".

Definition seconds_of (rest : string) : option Z :=
  if is_utc_suffix rest then Some 0
  else if String.eqb (substring 0 1 rest) ":"
          && is_utc_suffix (substring 3 (String.length rest - 3) rest)
  then field rest 1 2
  else None.

(** The instant a timestamp denotes when it is read as ISO 8601 in UTC,
    in seconds since 0001-01-01T00:00:00: [YYYY-MM-DDTHH:MM], with or
    without [:SS], with or without the zone [+00:00] or [Z]. *)
Definition instant_of_text (s : string) : option Z :=
  match field s 0 4, field s 5 2, field s 8 2, field s 11 2, field s 14 2,
        seconds_of (substring 16 (String.length s - 16) s) with
  | Some y, Some mo, Some d, Some h, Some mi, Some sec =>
      if String.eqb (substring 4 1 s) "-" && String.eqb (substring 7 1 s) "-"
         && String.eqb (substring 10 1 s) "T"
         && String.eqb (substring 13 1 s) ":"
      then Some (ymd2ord y mo d * 86400 + h * 3600 + mi * 60 + sec)
      else None
  | _, _, _, _, _, _ => None
  end.

Definition instant_of_datetime (d : datetime) : Z :=
  toordinal d * 86400 + hour d * 3600 + minute d * 60 + second d.

(** [res] is the set of the rows of [db] whose timestamp, as an instant,
    is not before [since]. *)
Definition window_by_instant (since : datetime) (db res : list row) : Prop :=
  forall r,
    In r res <->
    In r db /\ exists i, instant_of_text (timestamp r) = Some i
                         /\ instant_of_datetime since <= i.

(** Ascending order of the timestamps as text. *)
Definition ascending (rows : list row) : Prop :=
  StronglySorted (fun a b => String.leb (timestamp a) (timestamp b) = true)
    rows.

(** [data.get("hourly")] for a [dict] given by its items. *)
Definition hourly_of (d : list (string * pyval)) : pyval :=
  match lookup "hourly" d with
  | Some h => h
  | None => JNull
  end.

Definition absent (k : string) (h : list (string * pyval)) : bool :=
  match lookup k h with
  | Some _ => false
  | None => true
  end.

(** One of the three hourly sequences is not in the reply. *)
Definition sequence_missing (d : list (string * pyval)) : bool :=
  match hourly_of d with
  | JObj h =>
      absent "time" h || absent "temperature_2m" h
      || absent "relative_humidity_2m" h
  | _ => true
  end.

Definition list_or_absent (k : string) (h : list (string * pyval)) : bool :=
  match lookup k h with
  | Some (JArr _) | None => true
  | Some _ => false
  end.

(** [hourly] is not there, or is empty, or is a [dict] whose sequences,
    where present, are lists. *)
Definition hourly_shaped (d : list (string * pyval)) : bool :=
  match hourly_of d with
  | JObj h =>
      list_or_absent "time" h && list_or_absent "temperature_2m" h
      && list_or_absent "relative_humidity_2m" h
  | v => negb (truthy v)
  end.



(** The paragraph of the report that starts with [label]. *)
Fixpoint line_of (label : string) (story : list flowable) : option string :=
  match story with
  | [] => None
  | Paragraph text _ :: rest =>
      if String.prefix label text then Some text else line_of label rest
  | _ :: rest => line_of label rest
  end.

Definition has_chart (story : list flowable) : bool :=
  existsb (fun f => match f with Image _ _ _ => true | _ => false end) story.

(** A cell that is not NULL holds a number. *)
Definition number_cell (c : option float) : Prop :=
  match c with
  | Some f => is_nan f = false
  | None => True
  end.

(** The invariant of the table: no cell holds a NaN and no row has the
    key of an earlier row. *)
Definition clean (r : row) : Prop :=
  number_cell (latitude r) /\ number_cell (longitude r).

Definition table_inv (t : table) : Prop :=
  Forall clean t /\ ForallOrdPairs (fun a b => conflicts a b = false) t.

(** Both coordinates of the tuple are numbers. *)
Definition has_location (r : pyval * float * float * float * float) : Prop :=
  let '(_, _, _, la, lo) := r in is_nan la = false /\ is_nan lo = false.


(** The story of the report for an empty window. *)
Definition empty_story : list flowable :=
  [Paragraph "Weather Report" Title;
   Paragraph "No data available for last 48 hours." Normal].

(** The float a JSON number stands for: a float is itself, an integer is
    its nearest float when that is in range; other values are no
    numbers. *)
Definition float_of_number (v : pyval) : option float :=
  match v with
  | JFloat f => Some f
  | JInt n =>
      match float_of_int n with
      | Ok f => Some f
      | Raise _ => None
      end
  | _ => None
  end.

(** ** Sample values *)

(** An instance for running the model where none of the three functions
    decides the outcome. *)
Definition sample_runtime : Runtime :=
  {| float_of_str := fun _ => None;
     float_repr := fun _ => "?";
     real_to_text := fun _ => "?" |}.

Definition f_47_5 : float := float_of_scaled 95 (-1).
Definition f_8_5 : float := float_of_scaled 17 (-1).
Definition f_21_25 : float := float_of_scaled 85 (-2).
Definition f_zero : float := S754_zero false.
Definition f_inf : float := S754_infinity false.

Definition midnight_reading : datetime := mk_datetime 2024 1 3 0 0 0 500000.

(** A reply whose sequences have the lengths 5, 5 and 3. *)
Definition sample_hourly : list (string * pyval) :=
  [("time", JArr [JStr "2024-01-02T00:00"; JStr "2024-01-02T01:00";
                  JStr "2024-01-02T02:00"; JStr "2024-01-02T03:00";
                  JStr "2024-01-02T04:00"]);
   ("temperature_2m", JArr [JFloat f_21_25; JInt 21; JFloat f_8_5;
                            JInt 20; JFloat f_21_25]);
   ("relative_humidity_2m", JArr [JInt 50; JFloat f_47_5; JInt 52])].

Definition sample_data : list (string * pyval) :=
  [("hourly", JObj sample_hourly)].

Definition sample_reply : http_reply := Reply 200 (Some (JObj sample_data)).

(** What the first ingest of [sample_reply] reports and stores. *)
Definition sample_report : ingest_report :=
  mk_ingest_report stored_message (f_47_5, f_8_5) 3 3.

Definition sample_table : table :=
  [stored_row "2024-01-02T00:00" f_21_25 (float_of_scaled 50 0) f_47_5 f_8_5;
   stored_row "2024-01-02T01:00" (float_of_scaled 21 0) f_47_5 f_47_5 f_8_5;
   stored_row "2024-01-02T02:00" f_8_5 (float_of_scaled 52 0) f_47_5 f_8_5].

(** A reply with [hourly] present and the timestamps missing. *)
Definition no_time_data : list (string * pyval) :=
  [("hourly",
    JObj [("temperature_2m", JArr [JFloat f_21_25]);
          ("relative_humidity_2m", JArr [JInt 50])])].

(** A reply whose only temperature is [null]. *)
Definition null_temperature_hourly : list (string * pyval) :=
  [("time", JArr [JStr "2024-01-02T00:00"]);
   ("temperature_2m", JArr [JNull]);
   ("relative_humidity_2m", JArr [JInt 50])].

(** A batch of one record at a latitude that is NaN. *)
Definition nan_batch : list (pyval * float * float * float * float) :=
  [(JStr "2024-01-02T00:00", f_21_25, f_47_5, S754_nan, f_8_5)].

Definition nan_row : row :=
  stored_row "2024-01-02T00:00" f_21_25 f_47_5 S754_nan f_8_5.

(** What the ingest of [sample_reply] at a NaN latitude stores. *)
Definition nan_table : table :=
  [stored_row "2024-01-02T00:00" f_21_25 (float_of_scaled 50 0) S754_nan f_8_5;
   stored_row "2024-01-02T01:00" (float_of_scaled 21 0) f_47_5 S754_nan f_8_5;
   stored_row "2024-01-02T02:00" f_8_5 (float_of_scaled 52 0) S754_nan f_8_5].


(** A row older than the window. *)
Definition stale_table : table :=
  [stored_row "2023-12-30T10:00" f_21_25 f_47_5 f_47_5 f_8_5].

(** A row on the hour the window starts at. *)
Definition boundary_table : table :=
  [stored_row "2024-01-01T00:00" f_21_25 f_47_5 f_47_5 f_8_5].

(** Rows of the last two days on the equator, at latitude 0.0. *)
Definition equator_table : table :=
  [stored_row "2024-01-02T12:00" f_21_25 f_47_5 f_zero f_8_5;
   stored_row "2024-01-02T13:00" f_8_5 f_47_5 f_47_5 f_8_5].

Definition later_reading : datetime := mk_datetime 2024 1 3 0 0 1 250.

(** ** Properties as the specification states them *)

(** The second of two equal ingests inserts nothing and requests as much. *)
Definition ingest_idempotent {rt : Runtime} (lat lon : float) (reply : http_reply)
    (db : table) : Prop :=
  forall report db1,
    weather_report lat lon reply db = Ok (report, db1) ->
    exists report2 db2,
      weather_report lat lon reply db1 = Ok (report2, db2)
      /\ db_inserted_rows report2 = 0
      /\ requested_records report2 = requested_records report.

(** The window query returns the rows at or after the instant now minus
    48 hours, cut to whole seconds, in ascending order. *)
Definition window_of_instants (now_utc : datetime) (db : table) : Prop :=
  exists since res,
    sub_hours now_utc 48 = Ok since
    /\ fetch_last_48h None None now_utc db = Ok res
    /\ window_by_instant (replace_microsecond0 since) db res
    /\ ascending res.

(** Whatever the three lists of the reply hold, the ingest builds as
    many records as the shortest of them is long. *)
Definition truncates_to_shortest {rt : Runtime} (lat lon : float)
    (h : list (string * pyval)) : Prop :=
  forall times temps hums,
    lookup "time" h = Some (JArr times) ->
    lookup "temperature_2m" h = Some (JArr temps) ->
    lookup "relative_humidity_2m" h = Some (JArr hums) ->
    exists rows,
      hourly_rows lat lon (JObj h) = Ok rows
      /\ List.length rows
         = min3 (List.length times) (List.length temps) (List.length hums).

(** A reply with a sequence missing makes the ingest fail with a 502. *)
Definition detects_missing_sequence {rt : Runtime} (lat lon : float)
    (d : list (string * pyval)) (db : table) : Prop :=
  sequence_missing d = true ->
  exists detail,
    weather_report lat lon (Reply 200 (Some (JObj d))) db
    = Raise (HTTPException 502 detail).

(** ** The spreadsheet export *)

(** The data frame [pd.DataFrame(rows, columns=...)]: the names of the
    columns and one record per tuple, in the order of [rows]. *)
Record frame : Type := mk_frame {
  columns : list string;
  records : list row
}.

(** The response of [/export/excel]: the frame written by
    [df.to_excel(buf, index=False, sheet_name="weather")] stands for the
    bytes of the workbook.  A frame too long for a sheet, which the
    writer refuses, is outside the model. *)
Record xlsx_response : Type := mk_xlsx_response {
  sheet : frame;
  sheet_name : string;
  with_index : bool;
  xlsx_media_type : string;
  xlsx_headers : list (string * string)
}.

Definition excel_columns : list string :=
  ["timestamp"; "temperature_2m"; "relative_humidity_2m"; "latitude";
   "longitude"].

(** The endpoint [/export/excel]. *)
Definition export_excel (lat lon : option float) (now_utc : datetime)
    (db : table) : result xlsx_response :=
  rows <- fetch_last_48h lat lon now_utc db ;;
  let df := mk_frame excel_columns rows in
  Ok (mk_xlsx_response df "weather" false
        "application/vnd.openxmlformats-officedocument.spreadsheetml.sheet"
        [("Content-Disposition",
          "attachment; filename=weather_last_48h.xlsx")]).

(** ** Further notions *)

(** A reading of the clock from year 2 on, with its fields in range. *)
Definition after_year_one (d : datetime) : bool :=
  (2 <=? year d) && (year d <=? 9999)
  && (1 <=? month d) && (month d <=? 12)
  && (1 <=? day d) && (day d <=? 31)
  && (0 <=? hour d) && (hour d <? 24)
  && (0 <=? minute d) && (minute d <? 60)
  && (0 <=? second d) && (second d <? 60).

(** The time of day of a reading is in range. *)
Definition time_in_range (d : datetime) : bool :=
  (0 <=? hour d) && (hour d <? 24)
  && (0 <=? minute d) && (minute d <? 60)
  && (0 <=? second d) && (second d <? 60).

(** The exception is one the program raises for the client. *)
Definition is_http (e : exn) : bool :=
  match e with
  | HTTPException _ _ => true
  | _ => false
  end.

(** The timestamp of the tuple is [None]. *)
Definition null_timestamp (r : pyval * float * float * float * float) : bool :=
  let '(ts, _, _, _, _) := r in
  match ts with
  | JNull => true
  | _ => false
  end.

(** The row is at the location: both coordinates equal the given ones. *)
Definition at_location (la lo : float) (r : row) : bool :=
  real_eq (latitude r) (real_cell (bind_float la))
  && real_eq (longitude r) (real_cell (bind_float lo)).

(** The row is in the window that starts at the text [since_iso]. *)
Definition in_window (since_iso : string) (r : row) : bool :=
  String.leb since_iso (timestamp r).

(** The row passes the location test of the query: both coordinates are
    given and the row is there, or one of them is not given. *)
Definition location_matches (lat lon : option float) (r : row) : bool :=
  match lat, lon with
  | Some la, Some lo => at_location la lo r
  | _, _ => true
  end.

(** The rows a query is to return, in the order of the table. *)
Definition window_rows (since_iso : string) (lat lon : option float)
    (db : table) : list row :=
  filter (fun r => in_window since_iso r && location_matches lat lon r) db.

(** The ISO text of the start of the window for a start [since]. *)
Definition window_start (since : datetime) : string :=
  isoformat_utc (replace_microsecond0 since).

(** The row is what some record of the batch is stored as. *)
Definition from_batch {rt : Runtime}
    (rows : list (pyval * float * float * float * float)) (new : row) : Prop :=
  exists ts temp hum la lo v s,
    In (ts, temp, hum, la, lo) rows
    /\ bind_param ts = Ok v
    /\ text_cell v = Some s
    /\ new = stored_row s temp hum la lo.

(** The records [weather_report] builds from [sample_reply]. *)
Definition sample_batch : list (pyval * float * float * float * float) :=
  [(JStr "2024-01-02T00:00", f_21_25, float_of_scaled 50 0, f_47_5, f_8_5);
   (JStr "2024-01-02T01:00", float_of_scaled 21 0, f_47_5, f_47_5, f_8_5);
   (JStr "2024-01-02T02:00", f_8_5, float_of_scaled 52 0, f_47_5, f_8_5)].

Definition window_start_reading : datetime :=
  mk_datetime 2024 1 1 0 0 0 500000.

(** A table with rows of two places. *)
Definition two_places_table : table :=
  [stored_row "2024-01-02T13:00" f_8_5 f_47_5 f_47_5 f_8_5;
   stored_row "2024-01-02T12:00" f_21_25 f_47_5 f_zero f_8_5;
   stored_row "2024-01-02T11:00" f_21_25 f_47_5 f_47_5 f_8_5;
   stored_row "2023-12-30T10:00" f_21_25 f_47_5 f_47_5 f_8_5].

(** * Properties *)

(** ** The calendar on examples *)

Example sub_hours_over_leap_day :
  sub_hours (mk_datetime 2024 3 1 7 30 15 250) 48
  = Ok (mk_datetime 2024 2 28 7 30 15 250).
Proof. reflexivity. Qed.

Example isoformat_utc_example :
  isoformat_utc (mk_datetime 2024 1 1 0 0 0 0) = "2024-01-01T00:00:00+00:00".
Proof. reflexivity. Qed.

Example negative_zero_read_back :
  stored_cell (S754_zero true) = Some (S754_zero false)
  /\ stored_cell S754_nan = None
  /\ stored_cell f_inf = Some f_inf.
Proof. repeat split. Qed.

Example strftime_minutes_example :
  strftime_minutes (mk_datetime 2024 1 3 9 5 59 1) = "2024-01-03 09:05 UTC".
Proof. reflexivity. Qed.

(** ** The error monad and the comprehension *)

Lemma bind_Ok {A B : Type} (m : result A) (k : A -> result B) (b : B) :
  bind m k = Ok b -> exists a, m = Ok a /\ k a = Ok b.
Proof.
  destruct m as [a|e]; simpl; intros H; [eauto | discriminate].
Qed.

Ltac bind_inv H :=
  let a := fresh "a" in
  let Ha := fresh "Ha" in
  apply bind_Ok in H; destruct H as [a [Ha H]].

Lemma comprehension_length {A B : Type} (f : A -> result B) :
  forall xs ys, comprehension f xs = Ok ys -> List.length ys = List.length xs.
Proof.
  induction xs as [|x xs IH]; simpl; intros ys H.
  - injection H as <-. reflexivity.
  - bind_inv H. bind_inv H. injection H as <-. simpl. f_equal. auto.
Qed.

Lemma comprehension_Forall {A B : Type} (f : A -> result B) (P : B -> Prop) :
  (forall x y, f x = Ok y -> P y) ->
  forall xs ys, comprehension f xs = Ok ys -> Forall P ys.
Proof.
  intros Hf. induction xs as [|x xs IH]; simpl; intros ys H.
  - injection H as <-. constructor.
  - bind_inv H. bind_inv H. injection H as <-. constructor; eauto.
Qed.

Lemma comprehension_nth {A B : Type} (f : A -> result B) :
  forall xs ys, comprehension f xs = Ok ys ->
  forall i x, nth_error xs i = Some x ->
  exists y, nth_error ys i = Some y /\ f x = Ok y.
Proof.
  induction xs as [|x0 xs IH]; simpl; intros ys H i x Hi.
  - destruct i; discriminate.
  - bind_inv H. bind_inv H. injection H as <-.
    destruct i as [|i]; simpl in *.
    + injection Hi as <-. eauto.
    + eauto.
Qed.

Lemma comprehension_total {A B : Type} (f : A -> result B) :
  forall xs, (forall x, In x xs -> exists y, f x = Ok y) ->
  exists ys, comprehension f xs = Ok ys.
Proof.
  induction xs as [|x xs IH]; simpl; intros H.
  - eauto.
  - destruct (H x) as [y Hy]; [auto|].
    destruct IH as [ys Hys]; [auto|].
    rewrite Hy, Hys. simpl. eauto.
Qed.

(** ** Equality of stored numbers *)

Lemma SFeqb_refl (f : float) : is_nan f = false -> SFeqb f f = true.
Proof.
  destruct f as [s|s| |s m e]; intros H; try discriminate H;
    unfold SFeqb, SFcompare.
  - reflexivity.
  - destruct s; reflexivity.
  - change (Pos.compare_cont Eq m m) with (Pos.compare m m).
    destruct s; rewrite Z.compare_refl, Pos.compare_refl; reflexivity.
Qed.

Lemma real_cell_bind_float (f : float) :
  real_cell (bind_float f) = if is_nan f then None else Some f.
Proof. unfold bind_float. destruct (is_nan f); reflexivity. Qed.

Lemma number_cell_bind_float (f : float) : number_cell (real_cell (bind_float f)).
Proof.
  rewrite real_cell_bind_float. destruct (is_nan f) eqn:E; simpl; auto.
Qed.

Lemma is_nan_real_as_stored (f : float) : is_nan (real_as_stored f) = is_nan f.
Proof. destruct f; reflexivity. Qed.

Lemma stored_cell_cases (f : float) :
  stored_cell f = if is_nan f then None else Some (real_as_stored f).
Proof.
  unfold stored_cell. rewrite real_cell_bind_float, is_nan_real_as_stored.
  reflexivity.
Qed.

Lemma number_cell_stored_cell (f : float) : number_cell (stored_cell f).
Proof. apply number_cell_bind_float. Qed.

(** The sign of a zero does not count when numbers are compared. *)
Lemma SFeqb_real_as_stored (x y : float) :
  SFeqb x (real_as_stored y) = SFeqb x y.
Proof. destruct x, y; reflexivity. Qed.

Lemma real_eq_stored_cell (c : option float) (f : float) :
  real_eq c (stored_cell f) = real_eq c (real_cell (bind_float f)).
Proof.
  rewrite stored_cell_cases, real_cell_bind_float.
  destruct (is_nan f), c; simpl; auto using SFeqb_real_as_stored.
Qed.

Lemma real_eq_refl (c : option float) :
  number_cell c -> c <> None -> real_eq c c = true.
Proof.
  destruct c as [f|]; simpl; intros H N; [apply SFeqb_refl; exact H | congruence].
Qed.

Lemma same_key_conflicts (a b : row) :
  clean a -> located a -> same_key a b -> conflicts a b = true.
Proof.
  intros [Cla Clo] [La Lo] [Ht [Hla Hlo]]. unfold conflicts.
  rewrite <- Ht, <- Hla, <- Hlo, String.eqb_refl.
  rewrite !real_eq_refl by assumption. reflexivity.
Qed.

Lemma ForallOrdPairs_snoc {A : Type} (R : A -> A -> Prop) (l : list A) (x : A) :
  ForallOrdPairs R l -> Forall (fun a => R a x) l ->
  ForallOrdPairs R (l ++ [x])%list.
Proof.
  induction 1 as [|a l Ha Hl IH]; simpl; intros HF.
  - constructor; constructor.
  - inversion HF; subst. constructor; auto.
    apply Forall_app. split; auto.
Qed.

Lemma ForallOrdPairs_nth {A : Type} (R : A -> A -> Prop) (l : list A) :
  ForallOrdPairs R l ->
  forall i j a b, (i < j)%nat ->
    nth_error l i = Some a -> nth_error l j = Some b -> R a b.
Proof.
  induction 1 as [|x l Hx Hl IH]; intros i j a b Hij Hi Hj.
  - destruct i; discriminate.
  - destruct j as [|j]; [lia|]. simpl in Hj.
    destruct i as [|i]; simpl in Hi.
    + injection Hi as <-. rewrite Forall_forall in Hx.
      apply Hx. eapply nth_error_In; eauto.
    + apply (IH i j a b); [lia | assumption | assumption].
Qed.

Lemma table_inv_unique (t : table) :
  table_inv t ->
  forall i j a b,
    nth_error t i = Some a -> nth_error t j = Some b ->
    located a -> same_key a b -> i = j.
Proof.
  intros [Hc Hp] i j a b Hi Hj La K.
  assert (Ca : clean a) by (rewrite Forall_forall in Hc; eapply Hc, nth_error_In; eauto).
  assert (Cb : clean b) by (rewrite Forall_forall in Hc; eapply Hc, nth_error_In; eauto).
  destruct (Nat.lt_trichotomy i j) as [L | [E | L]]; [| exact E |].
  - pose proof (ForallOrdPairs_nth _ _ Hp _ _ _ _ L Hi Hj) as F. cbv beta in F.
    rewrite (same_key_conflicts a b) in F by assumption. discriminate.
  - pose proof (ForallOrdPairs_nth _ _ Hp _ _ _ _ L Hj Hi) as F. cbv beta in F.
    assert (K' : same_key b a) by (destruct K as [? [? ?]]; repeat split; congruence).
    assert (Lb : located b) by (destruct K as [? [E1 E2]], La; split; congruence).
    rewrite (same_key_conflicts b a) in F by assumption. discriminate.
Qed.

Section Properties.

Context {rt : Runtime}.

(** What one [INSERT OR IGNORE] does to the table. *)
Lemma insert_or_ignore_cases (v : sqlval) (temp hum la lo : float) (t t' : table) (n : Z) :
  insert_or_ignore v temp hum la lo t = (t', n) ->
  (t' = t /\ n = 0
   /\ (text_cell v = None
       \/ exists s, text_cell v = Some s
            /\ existsb (fun old => conflicts old (stored_row s temp hum la lo)) t
               = true))
  \/ (exists s, text_cell v = Some s
        /\ t' = (t ++ [stored_row s temp hum la lo])%list
        /\ n = 1
        /\ existsb (fun old => conflicts old (stored_row s temp hum la lo)) t
           = false).
Proof.
  unfold insert_or_ignore. destruct (text_cell v) as [s|].
  - destruct (existsb _ t) eqn:E; intros H; injection H as <- <-.
    + left. repeat split; eauto.
    + right. exists s. repeat split; auto.
  - intros H; injection H as <- <-. left. auto.
Qed.

(** [executemany] only appends: the old rows stay, in their order; the
    count grows by the number of rows appended, at most one per tuple;
    no appended row has the key of an old row. *)
Lemma executemany_appends :
  forall rows t c t' c',
    executemany rows t c = Ok (t', c') ->
    table_inv t ->
    exists added,
      t' = (t ++ added)%list
      /\ c' = c + Z.of_nat (List.length added)
      /\ (List.length added <= List.length rows)%nat
      /\ table_inv t'
      /\ (forall new old, In new added -> In old t -> conflicts old new = false).
Proof.
  induction rows as [|[[[[ts temp] hum] la] lo] rows IH]; simpl; intros t c t' c' H Inv.
  - injection H as <- <-. exists []. rewrite app_nil_r. simpl.
    split; [reflexivity|]. split; [lia|]. split; [lia|]. split; [exact Inv|].
    intros new old [].
  - bind_inv H. destruct (insert_or_ignore a temp hum la lo t) as [t1 n] eqn:E.
    apply insert_or_ignore_cases in E.
    destruct E as [[-> [-> _]] | [s [Hs [-> [-> Hex]]]]].
    + destruct (IH _ _ _ _ H Inv) as [added [-> [-> [Hl [Inv' Hn]]]]].
      exists added.
      split; [reflexivity|]. split; [lia|]. split; [lia|]. split; assumption.
    + set (new := stored_row s temp hum la lo) in *.
      assert (Hold : Forall (fun old => conflicts old new = false) t).
      { rewrite Forall_forall. intros old Ho.
        destruct (conflicts old new) eqn:Ec; [|reflexivity].
        assert (existsb (fun old => conflicts old new) t = true)
          by (apply existsb_exists; eauto).
        congruence. }
      assert (Inv1 : table_inv (t ++ [new])%list).
      { destruct Inv as [Hc Hp]. split.
        - apply Forall_app. split; [exact Hc|].
          constructor; [|constructor].
          split; apply number_cell_stored_cell.
        - apply ForallOrdPairs_snoc; assumption. }
      destruct (IH _ _ _ _ H Inv1) as [added [-> [-> [Hl [Inv' Hn]]]]].
      exists (new :: added). rewrite <- app_assoc in Inv' |- *.
      split; [reflexivity|]. split; [simpl List.length; lia|].
      split; [simpl; lia|]. split; [exact Inv'|].
      intros new' old [<- | Hin] Ho.
      * rewrite Forall_forall in Hold. auto.
      * apply Hn; auto. apply in_or_app. auto.
Qed.

Lemma insert_weather_rows_appends (rows : list record) (db db' : table) (n : Z) :
  insert_weather_rows rows db = Ok (n, db') ->
  table_inv db ->
  exists added,
    db' = (db ++ added)%list
    /\ n = Z.of_nat (List.length added)
    /\ (List.length added <= List.length rows)%nat
    /\ table_inv db'
    /\ (forall new old, In new added -> In old db -> conflicts old new = false).
Proof.
  unfold insert_weather_rows. intros H Inv. bind_inv H.
  destruct a as [t c]. injection H as <- <-.
  destruct (executemany_appends _ _ _ _ _ Ha Inv) as [added [E1 [E2 E3]]].
  exists added. split; [exact E1|]. split; [lia | exact E3].
Qed.

Lemma reachable_inv (db : table) : reachable db -> table_inv db.
Proof.
  induction 1 as [|db rows n db' _ IH H].
  - split; constructor.
  - destruct (insert_weather_rows_appends _ _ _ _ H IH) as [added ?]. tauto.
Qed.

Lemma executemany_incl :
  forall rows t c t' c', executemany rows t c = Ok (t', c') -> incl t t'.
Proof.
  induction rows as [|[[[[ts temp] hum] la] lo] rows IH]; simpl; intros t c t' c' H.
  - injection H as <- <-. apply incl_refl.
  - bind_inv H. destruct (insert_or_ignore a temp hum la lo t) as [t1 n] eqn:E.
    apply IH in H. apply insert_or_ignore_cases in E.
    destruct E as [[-> _] | [s [_ [-> _]]]]; [exact H|].
    intros x Hx. apply H. apply in_or_app. auto.
Qed.

Lemma executemany_count :
  forall rows t c t' c',
    executemany rows t c = Ok (t', c') ->
    c <= c' <= c + Z.of_nat (List.length rows).
Proof.
  induction rows as [|[[[[ts temp] hum] la] lo] rows IH]; simpl List.length;
    simpl executemany; intros t c t' c' H.
  - injection H as <- <-. simpl. lia.
  - bind_inv H. destruct (insert_or_ignore a temp hum la lo t) as [t1 n] eqn:E.
    apply IH in H. apply insert_or_ignore_cases in E.
    destruct E as [[_ [-> _]] | [s [_ [_ [-> _]]]]]; lia.
Qed.

(** Once a batch went in, running it again on the table it left, or on
    any table that has those rows, inserts nothing. *)
Lemma executemany_again :
  forall rows t c t' c',
    executemany rows t c = Ok (t', c') ->
    Forall has_location rows ->
    forall t'' c0, incl t' t'' -> executemany rows t'' c0 = Ok (t'', c0).
Proof.
  induction rows as [|[[[[ts temp] hum] la] lo] rows IH]; simpl;
    intros t c t' c' H HF t'' c0 Hin.
  - reflexivity.
  - bind_inv H. rewrite Ha. simpl.
    inversion HF as [|r rs Hloc HF']; subst.
    destruct Hloc as [Hla Hlo].
    destruct (insert_or_ignore a temp hum la lo t) as [t1 n] eqn:E.
    pose proof (executemany_incl _ _ _ _ _ H) as Hin1.
    assert (E'' : insert_or_ignore a temp hum la lo t'' = (t'', 0)).
    { apply insert_or_ignore_cases in E. unfold insert_or_ignore.
      destruct E as [[-> [_ [Hn | [s [Hs Hex]]]]] | [s [Hs [-> [_ _]]]]].
      - rewrite Hn. reflexivity.
      - rewrite Hs. apply existsb_exists in Hex. destruct Hex as [old [Ho Hc]].
        replace (existsb _ t'') with true; [reflexivity|].
        symmetry. apply existsb_exists. exists old. split; auto.
      - rewrite Hs. set (new := stored_row s temp hum la lo).
        replace (existsb _ t'') with true; [reflexivity|].
        symmetry. apply existsb_exists. exists new. split.
        + apply Hin, Hin1, in_or_app. right. left. reflexivity.
        + unfold conflicts, new, stored_row. simpl. rewrite String.eqb_refl.
          rewrite !stored_cell_cases, Hla, Hlo. simpl.
          rewrite !SFeqb_refl by (rewrite is_nan_real_as_stored; assumption).
          reflexivity. }
    rewrite E''. rewrite Z.add_0_r. eapply IH; eauto.
Qed.

Lemma hourly_rows_located (lat lon : float) (hourly : pyval) (rows : list record) :
  is_nan lat = false -> is_nan lon = false ->
  hourly_rows lat lon hourly = Ok rows -> Forall has_location rows.
Proof.
  intros Hla Hlo H. unfold hourly_rows in H.
  do 6 bind_inv H.
  eapply comprehension_Forall; [|exact H].
  intros i y Hy. simpl in Hy. do 5 bind_inv Hy. injection Hy as <-.
  split; assumption.
Qed.

(** ** Claims about the store *)

(** C1 (amended): in every table the program can build, no two rows whose
    coordinates are numbers share a (timestamp, latitude, longitude)
    triple; an insert leaves the stored rows as they are and appends no
    row with the key of a stored row when the coordinates of the new row
    are numbers.  (A NaN coordinate is stored as NULL, which the unique
    index takes as different from every value.) *)
Theorem C1_unique_located_keys :
  forall db, reachable db ->
    (forall i j a b,
        nth_error db i = Some a -> nth_error db j = Some b ->
        located a -> same_key a b -> i = j)
    /\ (forall rows n db',
          insert_weather_rows rows db = Ok (n, db') ->
          exists added,
            db' = (db ++ added)%list
            /\ n = Z.of_nat (List.length added)
            /\ forall new old,
                 In new added -> In old db -> located new ->
                 ~ same_key old new).
Proof.
  intros db R. pose proof (reachable_inv db R) as Inv. split.
  - apply table_inv_unique. exact Inv.
  - intros rows n db' H.
    destruct (insert_weather_rows_appends _ _ _ _ H Inv)
      as [added [E1 [E2 [_ [_ Hn]]]]].
    exists added. split; [exact E1|]. split; [exact E2|].
    intros new old Hnew Hold Lnew K.
    assert (Cold : clean old)
      by (destruct Inv as [Hc _]; rewrite Forall_forall in Hc; auto).
    assert (Lold : located old)
      by (destruct K as [_ [K1 K2]], Lnew; split; congruence).
    specialize (Hn new old Hnew Hold).
    rewrite (same_key_conflicts old new Cold Lold K) in Hn. discriminate.
Qed.

(** C10: when [weather_report] succeeds, the number of rows inserted is
    between 0 and the number of records requested. *)
Theorem C10_inserted_at_most_requested :
  forall lat lon reply db report db',
    weather_report lat lon reply db = Ok (report, db') ->
    0 <= db_inserted_rows report <= requested_records report.
Proof.
  intros lat lon reply db report db' H. unfold weather_report in H.
  bind_inv H. bind_inv H. destruct (negb (truthy a0)); [discriminate|].
  bind_inv H. bind_inv H. destruct a2 as [inserted db1].
  injection H as <- <-. simpl.
  unfold insert_weather_rows in Ha2. bind_inv Ha2.
  destruct a2 as [t c]. injection Ha2 as <- <-.
  apply executemany_count in Ha3. lia.
Qed.

(** C2 (amended): for coordinates that are numbers, when an ingest went
    through, the same ingest run again on the table it left goes through
    as well, inserts no row, leaves the table as it is and reports the
    same number of records requested. *)
Theorem C2_second_ingest_inserts_nothing :
  forall lat lon reply db report db1,
    is_nan lat = false -> is_nan lon = false ->
    weather_report lat lon reply db = Ok (report, db1) ->
    exists report2,
      weather_report lat lon reply db1 = Ok (report2, db1)
      /\ db_inserted_rows report2 = 0
      /\ requested_records report2 = requested_records report.
Proof.
  intros lat lon reply db report db1 Hla Hlo H. unfold weather_report in *.
  bind_inv H. rewrite Ha. simpl.
  bind_inv H. rewrite Ha0. simpl.
  destruct (negb (truthy a0)); [discriminate|].
  bind_inv H. rewrite Ha1. simpl.
  bind_inv H. destruct a2 as [inserted db']. injection H as <- <-.
  unfold insert_weather_rows in *. bind_inv Ha2.
  destruct a2 as [t c]. injection Ha2 as <- <-.
  rewrite (executemany_again _ _ _ _ _ Ha3
             (hourly_rows_located _ _ _ _ Hla Hlo Ha1) t 0 (incl_refl t)).
  simpl. eexists. split; [reflexivity|]. simpl. auto.
Qed.

End Properties.

(** ** The order of text and the window query *)

Lemma ascii_compare_trans_le (x y z : ascii) :
  Ascii.compare x y <> Gt -> Ascii.compare y z <> Gt ->
  Ascii.compare x z <> Gt
  /\ (Ascii.compare x z = Eq -> Ascii.compare x y = Eq /\ Ascii.compare y z = Eq).
Proof.
  unfold Ascii.compare.
  destruct (N.compare_spec (N_of_ascii x) (N_of_ascii y)) as [E1|L1|G1];
  destruct (N.compare_spec (N_of_ascii y) (N_of_ascii z)) as [E2|L2|G2];
  destruct (N.compare_spec (N_of_ascii x) (N_of_ascii z)) as [E3|L3|G3];
  intros H1 H2; try congruence; try lia;
  split; try congruence; try (intros _; split; reflexivity).
Qed.

Lemma string_leb_trans (a b c : string) :
  String.leb a b = true -> String.leb b c = true -> String.leb a c = true.
Proof.
  assert (T : forall a b c,
             String.compare a b <> Gt -> String.compare b c <> Gt ->
             String.compare a c <> Gt).
  { clear. induction a as [|x a IH]; intros [|y b] [|z c]; simpl;
      try congruence.
    intros H1 H2.
    assert (Hxy : Ascii.compare x y <> Gt)
      by (destruct (Ascii.compare x y); congruence).
    assert (Hyz : Ascii.compare y z <> Gt)
      by (destruct (Ascii.compare y z); congruence).
    destruct (ascii_compare_trans_le x y z Hxy Hyz) as [Hxz Heq].
    destruct (Ascii.compare x z) eqn:E; try congruence.
    destruct (Heq eq_refl) as [E1 E2]. rewrite E1 in H1. rewrite E2 in H2.
    eauto. }
  unfold String.leb. intros H1 H2.
  specialize (T a b c).
  destruct (String.compare a b); try discriminate;
  destruct (String.compare b c); try discriminate;
  destruct (String.compare a c); try reflexivity;
  exfalso; apply T; congruence.
Qed.

Lemma row_leb_transitive : Transitive (fun a b => is_true (RowOrder.leb a b)).
Proof.
  intros a b c. unfold is_true, RowOrder.leb. apply string_leb_trans.
Qed.

Lemma Permutation_filter {A : Type} (p : A -> bool) (l1 l2 : list A) :
  Permutation l1 l2 -> Permutation (filter p l1) (filter p l2).
Proof.
  induction 1 as [|x l1 l2 _ IH|x y l|l1 l2 l3 _ IH1 _ IH2]; simpl.
  - constructor.
  - destruct (p x); auto.
  - destruct (p x), (p y); auto. constructor.
  - etransitivity; eauto.
Qed.

Lemma StronglySorted_map {A B : Type} (f : A -> B) (R : B -> B -> Prop)
    (l : list A) :
  StronglySorted (fun a b => R (f a) (f b)) l -> StronglySorted R (map f l).
Proof.
  induction 1 as [|a l _ IH Ha]; simpl; constructor; auto.
  rewrite Forall_forall in *. intros b Hb.
  apply in_map_iff in Hb. destruct Hb as [x [<- Hx]]. auto.
Qed.

(** Two ascending lists of texts with the same elements are the same. *)
Lemma sorted_texts_unique (l1 : list string) :
  forall l2,
    StronglySorted (fun a b => String.leb a b = true) l1 ->
    StronglySorted (fun a b => String.leb a b = true) l2 ->
    Permutation l1 l2 -> l1 = l2.
Proof.
  induction l1 as [|a l1 IH]; intros l2 S1 S2 P.
  - apply Permutation_nil in P. congruence.
  - destruct l2 as [|b l2];
      [apply Permutation_sym, Permutation_nil in P; discriminate|].
    apply StronglySorted_inv in S1. destruct S1 as [S1 F1].
    apply StronglySorted_inv in S2. destruct S2 as [S2 F2].
    rewrite Forall_forall in F1, F2.
    assert (E : a = b).
    { assert (Ha : In a (b :: l2))
        by (eapply Permutation_in; [exact P | left; reflexivity]).
      assert (Hb : In b (a :: l1))
        by (eapply Permutation_in;
            [apply Permutation_sym; exact P | left; reflexivity]).
      destruct Ha as [-> | Ha]; [reflexivity|].
      destruct Hb as [-> | Hb]; [reflexivity|].
      apply String.leb_antisym; auto. }
    subst b. f_equal. apply IH; auto.
    eapply Permutation_cons_inv; eauto.
Qed.

Lemma select_since_spec (since_iso : string) (db : table) :
  Permutation (select_since since_iso db)
    (filter (fun r => String.leb since_iso (timestamp r)) db)
  /\ ascending (select_since since_iso db).
Proof.
  unfold select_since, ascending. split.
  - apply Permutation_sym, RowSort.Permuted_sort.
  - apply (RowSort.StronglySorted_sort _ row_leb_transitive).
Qed.

(** What the window query computes: with no location filter it returns
    the stored rows whose timestamp, compared as text, is not before the
    ISO text of now minus 48 hours cut to whole seconds; the rows come in
    ascending order of that text; the order of insertion changes neither
    the rows nor the sequence of their timestamps. *)
Lemma window_by_text :
  forall now_utc since db,
    sub_hours now_utc 48 = Ok since ->
    exists res,
      fetch_last_48h None None now_utc db = Ok res
      /\ Permutation res
           (filter (fun r => String.leb
                               (isoformat_utc (replace_microsecond0 since))
                               (timestamp r)) db)
      /\ (forall r,
            In r res <->
            In r db
            /\ String.leb (isoformat_utc (replace_microsecond0 since))
                 (timestamp r) = true)
      /\ ascending res
      /\ forall db2,
           Permutation db db2 ->
           exists res2,
             fetch_last_48h None None now_utc db2 = Ok res2
             /\ Permutation res res2
             /\ map timestamp res2 = map timestamp res.
Proof.
  intros now_utc since db Hs. unfold fetch_last_48h. rewrite Hs. simpl.
  set (iso := isoformat_utc (replace_microsecond0 since)).
  destruct (select_since_spec iso db) as [P S].
  exists (select_since iso db). split; [reflexivity|].
  split; [exact P|]. split; [|split; [exact S|]].
  - intros r. split; intros H.
    + apply (filter_In (fun r => String.leb iso (timestamp r))).
      eapply Permutation_in; eauto.
    + eapply Permutation_in; [apply Permutation_sym; exact P|].
      apply filter_In. exact H.
  - intros db2 P2. destruct (select_since_spec iso db2) as [P' S'].
    exists (select_since iso db2). split; [reflexivity|].
    assert (PP : Permutation (select_since iso db) (select_since iso db2)).
    { etransitivity; [exact P|]. etransitivity; [|apply Permutation_sym, P'].
      apply Permutation_filter. exact P2. }
    split; [exact PP|].
    apply sorted_texts_unique.
    + apply StronglySorted_map. exact S'.
    + apply StronglySorted_map. exact S.
    + apply Permutation_map, Permutation_sym. exact PP.
Qed.

(** C3 (where the code departs from it): the query compares the stored
    text with the ISO text of the start of the window, which has seconds
    and a zone.  A stored row whose instant is at or after the start of
    the window, and whose text sorts before that ISO text, is left out of
    the result: the window is not the set of rows at or after now minus
    48 hours. *)
Theorem C3_row_in_window_left_out :
  forall now_utc since db r i,
    sub_hours now_utc 48 = Ok since ->
    In r db ->
    instant_of_text (timestamp r) = Some i ->
    instant_of_datetime (replace_microsecond0 since) <= i ->
    String.leb (isoformat_utc (replace_microsecond0 since)) (timestamp r)
    = false ->
    exists res,
      fetch_last_48h None None now_utc db = Ok res
      /\ ~ In r res
      /\ ~ window_of_instants now_utc db.
Proof.
  intros now_utc since db r i Hs Hin Hi Hle Hlt.
  assert (E : fetch_last_48h None None now_utc db
              = Ok (select_since (isoformat_utc (replace_microsecond0 since))
                      db)).
  { unfold fetch_last_48h. rewrite Hs. reflexivity. }
  destruct (select_since_spec (isoformat_utc (replace_microsecond0 since)) db)
    as [P _].
  assert (N : ~ In r (select_since
                        (isoformat_utc (replace_microsecond0 since)) db)).
  { intros Hr. apply (Permutation_in _ P) in Hr. apply filter_In in Hr.
    destruct Hr as [_ Hr]. congruence. }
  eexists. split; [exact E|]. split; [exact N|].
  intros [since' [res' [Hs' [Hf' [W _]]]]].
  rewrite Hs in Hs'. injection Hs' as <-.
  rewrite E in Hf'. injection Hf' as <-.
  apply N. apply W. split; [exact Hin | eauto].
Qed.

Section Endpoints.

Context {rt : Runtime}.

(** ** The batch insert, record by record *)

Lemma executemany_app :
  forall pre post t c,
    executemany (pre ++ post) t c =
    ('(t1, c1) <- executemany pre t c ;; executemany post t1 c1).
Proof.
  induction pre as [|[[[[ts temp] hum] la] lo] pre IH]; simpl; intros post t c.
  - reflexivity.
  - destruct (bind_param ts) as [v|e]; simpl; [|reflexivity].
    destruct (insert_or_ignore v temp hum la lo t) as [t1 n]. apply IH.
Qed.




(** A value that is not a number at a position the comprehension reaches
    makes the whole request fail: no tuple is handed to the table. *)
Lemma hourly_rows_null_value (lat lon : float) (h : list (string * pyval))
    (times temps hums : list pyval) (i : nat) :
  lookup "time" h = Some (JArr times) ->
  lookup "temperature_2m" h = Some (JArr temps) ->
  lookup "relative_humidity_2m" h = Some (JArr hums) ->
  (i < min3 (List.length times) (List.length temps) (List.length hums))%nat ->
  nth_error temps i = Some JNull ->
  exists e, hourly_rows lat lon (JObj h) = Raise e.
Proof.
  intros Ht Hte Hh Hi Hn. unfold hourly_rows. simpl.
  rewrite Ht, Hte, Hh. simpl.
  destruct (comprehension _ _) as [rows|e] eqn:E; [|eauto].
  exfalso.
  destruct (comprehension_nth _ _ _ E i i) as [y [_ Hy]].
  { rewrite nth_error_seq.
    destruct (Nat.ltb_spec i (min3 (List.length times) (List.length temps)
                                (List.length hums))); [reflexivity | lia]. }
  simpl in Hy. rewrite Hn in Hy.
  destruct (nth_error times i); simpl in Hy; discriminate.
Qed.

(** ** The ingest endpoint *)

Lemma py_get_hourly (d : list (string * pyval)) :
  py_get (JObj d) "hourly" JNull = Ok (hourly_of d).
Proof. unfold py_get, hourly_of. destruct (lookup "hourly" d); reflexivity. Qed.

Lemma min3_zero (a b c : nat) :
  a = O \/ b = O \/ c = O -> min3 a b c = O.
Proof. unfold min3. lia. Qed.

(** C4 (amended): when one of the three hourly sequences is missing, the
    ingest fails with the 502 for a missing [hourly] exactly when the
    whole [hourly] object is missing or empty; when [hourly] is there
    with some sequence missing, the ingest succeeds with no record
    requested, none inserted and the table as it was. *)
Theorem C4_missing_sequence :
  forall lat lon d db,
    sequence_missing d = true ->
    hourly_shaped d = true ->
    weather_report lat lon (Reply 200 (Some (JObj d))) db
    = if truthy (hourly_of d)
      then Ok (mk_ingest_report stored_message (lat, lon) 0 0, db)
      else Raise missing_hourly.
Proof.
  intros lat lon d db Hm Hs. unfold weather_report.
  cbn [fetch_open_meteo Z.eqb Pos.eqb negb bind].
  rewrite py_get_hourly. cbn [bind].
  unfold sequence_missing, hourly_shaped in *.
  destruct (truthy (hourly_of d)) eqn:T; cbn [negb]; [|reflexivity].
  destruct (hourly_of d) as [|b|n|f|s|l|h];
    try (rewrite T in Hs; discriminate Hs).
  assert (R : hourly_rows lat lon (JObj h) = Ok []).
  { unfold hourly_rows, py_get, absent, list_or_absent in *.
    destruct (lookup "time" h) as [[|?|?|?|?|times|?]|]; try discriminate;
    destruct (lookup "temperature_2m" h) as [[|?|?|?|?|temps|?]|];
      try discriminate;
    destruct (lookup "relative_humidity_2m" h) as [[|?|?|?|?|hums|?]|];
      try discriminate;
    cbn [bind py_len];
    rewrite min3_zero by (simpl; tauto); reflexivity. }
  rewrite R. reflexivity.
Qed.

Lemma nth_error_firstn_In {A : Type} (l : list A) (n i : nat) (v : A) :
  (i < n)%nat -> nth_error l i = Some v -> In v (firstn n l).
Proof.
  intros Hi Hv. apply nth_error_In with (n := i).
  rewrite nth_error_firstn.
  destruct (Nat.ltb_spec i n); [exact Hv | lia].
Qed.

(** The comprehension of [weather_report] on three lists whose first
    min(a, b, c) temperatures and humidities [float] accepts. *)
Lemma hourly_rows_zip :
  forall lat lon h times temps hums,
    lookup "time" h = Some (JArr times) ->
    lookup "temperature_2m" h = Some (JArr temps) ->
    lookup "relative_humidity_2m" h = Some (JArr hums) ->
    (forall v,
        In v (firstn (min3 (List.length times) (List.length temps)
                        (List.length hums)) temps) ->
        exists f, py_float v = Ok f) ->
    (forall v,
        In v (firstn (min3 (List.length times) (List.length temps)
                        (List.length hums)) hums) ->
        exists f, py_float v = Ok f) ->
    exists rows,
      hourly_rows lat lon (JObj h) = Ok rows
      /\ List.length rows
         = min3 (List.length times) (List.length temps) (List.length hums)
      /\ (forall i,
            (i < min3 (List.length times) (List.length temps)
                   (List.length hums))%nat ->
            exists ts temp hum f g,
              nth_error times i = Some ts
              /\ nth_error temps i = Some temp
              /\ nth_error hums i = Some hum
              /\ py_float temp = Ok f
              /\ py_float hum = Ok g
              /\ nth_error rows i = Some (ts, f, g, lat, lon))
      /\ forall d db,
           lookup "hourly" d = Some (JObj h) ->
           weather_report lat lon (Reply 200 (Some (JObj d))) db
           = ('(inserted, db') <- insert_weather_rows rows db ;;
              Ok (mk_ingest_report stored_message (lat, lon)
                    (Z.of_nat (min3 (List.length times) (List.length temps)
                                 (List.length hums)))
                    inserted, db')).
Proof.
  intros lat lon h times temps hums Ht Hte Hh Ntemps Nhums.
  set (n := min3 (List.length times) (List.length temps) (List.length hums)) in *.
  assert (Hn : (n <= List.length times /\ n <= List.length temps
                /\ n <= List.length hums)%nat) by (unfold n, min3; lia).
  set (f := fun i : nat =>
              ts <- py_index (JArr times) i ;;
              temp_i <- py_index (JArr temps) i ;;
              temp <- py_float temp_i ;;
              hum_i <- py_index (JArr hums) i ;;
              hum <- py_float hum_i ;;
              Ok (ts, temp, hum, lat, lon)).
  assert (Hf : forall i, (i < n)%nat ->
            exists ts temp hum x g,
              nth_error times i = Some ts
              /\ nth_error temps i = Some temp
              /\ nth_error hums i = Some hum
              /\ py_float temp = Ok x /\ py_float hum = Ok g
              /\ f i = Ok (ts, x, g, lat, lon)).
  { intros i Hi.
    destruct (nth_error times i) as [ts|] eqn:E1;
      [|apply nth_error_None in E1; lia].
    destruct (nth_error temps i) as [temp|] eqn:E2;
      [|apply nth_error_None in E2; lia].
    destruct (nth_error hums i) as [hum|] eqn:E3;
      [|apply nth_error_None in E3; lia].
    destruct (Ntemps temp) as [x Hx]; [eapply nth_error_firstn_In; eauto|].
    destruct (Nhums hum) as [g Hg]; [eapply nth_error_firstn_In; eauto|].
    exists ts, temp, hum, x, g. repeat split; auto.
    unfold f. simpl. rewrite E1, E2. simpl. rewrite Hx, E3. simpl.
    rewrite Hg. reflexivity. }
  assert (HR : hourly_rows lat lon (JObj h) = comprehension f (seq 0 n)).
  { unfold hourly_rows. simpl. rewrite Ht, Hte, Hh. reflexivity. }
  destruct (comprehension_total f (seq 0 n)) as [rows Hrows].
  { intros i Hi. apply in_seq in Hi.
    destruct (Hf i) as [ts [temp [hum [x [g H]]]]]; [lia|].
    exists (ts, x, g, lat, lon). tauto. }
  assert (Hlen : List.length rows = n).
  { rewrite (comprehension_length _ _ _ Hrows). apply length_seq. }
  exists rows. rewrite HR. split; [exact Hrows|]. split; [exact Hlen|]. split.
  - intros i Hi.
    destruct (Hf i Hi) as [ts [temp [hum [x [g [E1 [E2 [E3 [Hx [Hg Hfi]]]]]]]]]].
    destruct (comprehension_nth _ _ _ Hrows i i) as [y [Hy Hy']].
    { rewrite nth_error_seq. destruct (Nat.ltb_spec i n); [reflexivity | lia]. }
    rewrite Hfi in Hy'. injection Hy' as <-.
    exists ts, temp, hum, x, g. repeat split; assumption.
  - intros d db Hd. unfold weather_report.
    cbn [fetch_open_meteo Z.eqb Pos.eqb negb bind].
    rewrite py_get_hourly. unfold hourly_of. rewrite Hd. cbn [bind].
    assert (T : truthy (JObj h) = true).
    { destruct h; [discriminate Ht | reflexivity]. }
    rewrite T. cbn [negb]. rewrite HR, Hrows. cbn [bind].
    destruct (insert_weather_rows rows db) as [[inserted db']|e];
      cbn [bind]; [rewrite <- Hlen|]; reflexivity.
Qed.

Lemma py_float_number (v : pyval) (f : float) :
  float_of_number v = Some f -> py_float v = Ok f.
Proof.
  destruct v; simpl; try discriminate.
  - destruct (float_of_int n); [|discriminate]. congruence.
  - congruence.
Qed.

(** C6 (amended): for a reply whose three sequences are lists of lengths
    a, b and c, with JSON numbers at the first min(a, b, c) places of the
    temperatures and humidities, the ingest builds exactly min(a, b, c)
    records; the i-th is made of the i-th timestamp, of the i-th
    temperature and humidity as floats and of the requested latitude and
    longitude; that many records are reported as requested. *)
Theorem C6_truncation_to_shortest :
  forall lat lon h times temps hums,
    lookup "time" h = Some (JArr times) ->
    lookup "temperature_2m" h = Some (JArr temps) ->
    lookup "relative_humidity_2m" h = Some (JArr hums) ->
    (forall v,
        In v (firstn (min3 (List.length times) (List.length temps)
                        (List.length hums)) temps) ->
        float_of_number v <> None) ->
    (forall v,
        In v (firstn (min3 (List.length times) (List.length temps)
                        (List.length hums)) hums) ->
        float_of_number v <> None) ->
    exists rows,
      hourly_rows lat lon (JObj h) = Ok rows
      /\ List.length rows
         = min3 (List.length times) (List.length temps) (List.length hums)
      /\ (forall i,
            (i < min3 (List.length times) (List.length temps)
                   (List.length hums))%nat ->
            exists ts temp hum f g,
              nth_error times i = Some ts
              /\ nth_error temps i = Some temp
              /\ nth_error hums i = Some hum
              /\ float_of_number temp = Some f
              /\ float_of_number hum = Some g
              /\ nth_error rows i = Some (ts, f, g, lat, lon))
      /\ forall d db,
           lookup "hourly" d = Some (JObj h) ->
           weather_report lat lon (Reply 200 (Some (JObj d))) db
           = ('(inserted, db') <- insert_weather_rows rows db ;;
              Ok (mk_ingest_report stored_message (lat, lon)
                    (Z.of_nat (min3 (List.length times) (List.length temps)
                                 (List.length hums)))
                    inserted, db')).
Proof.
  intros lat lon h times temps hums Ht Hte Hh Ntemps Nhums.
  assert (A : forall l : list pyval,
            (forall v, In v l -> float_of_number v <> None) ->
            forall v, In v l -> exists f, py_float v = Ok f).
  { intros l Hl v Hv. specialize (Hl v Hv).
    destruct (float_of_number v) as [f|] eqn:E; [|congruence].
    exists f. apply py_float_number. exact E. }
  destruct (hourly_rows_zip lat lon h times temps hums Ht Hte Hh
              (A _ Ntemps) (A _ Nhums)) as [rows [H1 [H2 [H3 H4]]]].
  exists rows. split; [exact H1|]. split; [exact H2|]. split; [|exact H4].
  intros i Hi.
  destruct (H3 i Hi) as (ts & temp & hum & f & g & E1 & E2 & E3 & F1 & F2 & R).
  exists ts, temp, hum, f, g.
  assert (Nt : float_of_number temp = Some f).
  { destruct (float_of_number temp) as [f'|] eqn:E.
    - apply py_float_number in E. congruence.
    - exfalso. apply (Ntemps temp); [|exact E].
      eapply nth_error_firstn_In; eauto. }
  assert (Nh : float_of_number hum = Some g).
  { destruct (float_of_number hum) as [g'|] eqn:E.
    - apply py_float_number in E. congruence.
    - exfalso. apply (Nhums hum); [|exact E].
      eapply nth_error_firstn_In; eauto. }
  repeat split; assumption.
Qed.

End Endpoints.

Section Reports.

Context {rt : Runtime}.

(** ** The document *)

(** C7: when the window of an export is empty, [export_pdf] succeeds and
    the document is the title and the notice that there is no data,
    without a chart. *)
Theorem C7_empty_window_report :
  forall lat lon now_utc utcnow db,
    fetch_last_48h lat lon now_utc db = Ok [] ->
    exists resp,
      export_pdf lat lon now_utc utcnow db = Ok resp
      /\ content resp = empty_story
      /\ has_chart (content resp) = false.
Proof.
  intros lat lon now_utc utcnow db H. unfold export_pdf. rewrite H.
  cbn [bind]. eexists. split; [reflexivity|]. split; reflexivity.
Qed.

(** C8: for a window that is not empty, the date-range line of the report
    is made of the reading of the clock alone: from that reading minus 48
    hours to that reading, whatever rows, and so whatever least and
    greatest timestamps, the query returned. *)
Theorem C8_date_range_from_clock :
  forall lat lon now_utc utcnow db r rows since,
    fetch_last_48h lat lon now_utc db = Ok (r :: rows) ->
    sub_hours utcnow 48 = Ok since ->
    exists resp,
      export_pdf lat lon now_utc utcnow db = Ok resp
      /\ line_of "<b>Date range:</b>" (content resp)
         = Some ("<b>Date range:</b> " ++ strftime_minutes since ++ " to "
                 ++ strftime_minutes utcnow).
Proof.
  intros lat lon now_utc utcnow db r rows since H Hs.
  unfold export_pdf. rewrite H. cbn [bind]. rewrite Hs. cbn [bind].
  eexists. split; [reflexivity|]. reflexivity.
Qed.

(** The location line in all cases: the coordinates are printed when both
    are given and both are true values. *)
Lemma location_line (lat lon : option float) (now_utc utcnow : datetime)
    (db : table) (r : row) (rows : list row) (since : datetime) :
  fetch_last_48h lat lon now_utc db = Ok (r :: rows) ->
  sub_hours utcnow 48 = Ok since ->
  exists resp,
    export_pdf lat lon now_utc utcnow db = Ok resp
    /\ line_of "<b>Location:</b>" (content resp)
       = Some ("<b>Location:</b> "
               ++ match lat, lon with
                  | Some la, Some lo =>
                      if both_truthy lat lon
                      then "lat=" ++ float_repr la ++ ", lon=" ++ float_repr lo
                      else "All locations"
                  | _, _ => "All locations"
                  end).
Proof.
  intros H Hs. unfold export_pdf. rewrite H. cbn [bind]. rewrite Hs. cbn [bind].
  eexists. split; reflexivity.
Qed.

(** C9 (where the code departs from it): with a location given whose
    latitude or longitude is zero, the rows are those of that location
    and yet the location line reads "All locations". *)
Theorem C9_zero_coordinate_reads_all_locations :
  forall la lo now_utc utcnow db r rows since,
    truthy (JFloat la) && truthy (JFloat lo) = false ->
    fetch_last_48h (Some la) (Some lo) now_utc db = Ok (r :: rows) ->
    sub_hours utcnow 48 = Ok since ->
    exists resp,
      export_pdf (Some la) (Some lo) now_utc utcnow db = Ok resp
      /\ line_of "<b>Location:</b>" (content resp)
         = Some "<b>Location:</b> All locations".
Proof.
  intros la lo now_utc utcnow db r rows since Hz H Hs.
  destruct (location_line _ _ _ _ _ _ _ _ H Hs) as [resp [E L]].
  exists resp. split; [exact E|]. rewrite L.
  unfold both_truthy. rewrite Hz. reflexivity.
Qed.

End Reports.

(** ** The sample inputs on every runtime

    None of the sample inputs has text where a number is read, a number
    where the timestamp is read, or coordinates that get printed: what
    the program does with them is the same whatever the three functions
    of the runtime are. *)

Section Departures.

Context {rt : Runtime}.

Lemma nan_record_stored_twice :
  insert_weather_rows nan_batch (init_db None) = Ok (1, [nan_row])
  /\ insert_weather_rows nan_batch [nan_row] = Ok (1, [nan_row; nan_row]).
Proof. split; vm_compute; reflexivity. Qed.

Lemma nan_ingest_inserts_again :
  weather_report S754_nan f_8_5 sample_reply []
  = Ok (mk_ingest_report stored_message (S754_nan, f_8_5) 3 3, nan_table)
  /\ weather_report S754_nan f_8_5 sample_reply nan_table
     = Ok (mk_ingest_report stored_message (S754_nan, f_8_5) 3 3,
           (nan_table ++ nan_table)%list).
Proof. split; vm_compute; reflexivity. Qed.

Lemma missing_time_ingest_succeeds :
  weather_report f_47_5 f_8_5 (Reply 200 (Some (JObj no_time_data))) []
  = Ok (mk_ingest_report stored_message (f_47_5, f_8_5) 0 0, []).
Proof. vm_compute. reflexivity. Qed.



Lemma null_temperature_builds_no_record :
  hourly_rows f_47_5 f_8_5 (JObj null_temperature_hourly) = Raise TypeError.
Proof. vm_compute. reflexivity. Qed.

End Departures.

(** ** Witnesses and counterexamples

    These run on [sample_runtime]. *)

#[local] Existing Instance sample_runtime.

Lemma sample_table_reachable : reachable sample_table.
Proof.
  apply (reachable_insert [] 
           [(JStr "2024-01-02T00:00", f_21_25, float_of_scaled 50 0, f_47_5, f_8_5);
            (JStr "2024-01-02T01:00", float_of_scaled 21 0, f_47_5, f_47_5, f_8_5);
            (JStr "2024-01-02T02:00", f_8_5, float_of_scaled 52 0, f_47_5, f_8_5)]
           3 sample_table).
  - apply reachable_init.
  - reflexivity.
Defined.

Lemma C1_witness :
  reachable sample_table
  /\ (forall i j a b,
         nth_error sample_table i = Some a -> nth_error sample_table j = Some b ->
         located a -> same_key a b -> i = j)
  /\ (forall rows n db',
         insert_weather_rows rows sample_table = Ok (n, db') ->
         exists added,
           db' = (sample_table ++ added)%list
           /\ n = Z.of_nat (List.length added)
           /\ forall new old,
                In new added -> In old sample_table -> located new ->
                ~ same_key old new).
Proof.
  split; [exact sample_table_reachable|].
  exact (C1_unique_located_keys sample_table sample_table_reachable).
Defined.

(** C1 as worded fails: a record at a NaN latitude, inserted twice, is
    stored twice, and the two rows have the same key. *)
Lemma C1_counterexample :
  insert_weather_rows nan_batch (init_db None) = Ok (1, [nan_row])
  /\ insert_weather_rows nan_batch [nan_row] = Ok (1, [nan_row; nan_row])
  /\ reachable [nan_row; nan_row]
  /\ ~ key_unique [nan_row; nan_row].
Proof.
  destruct nan_record_stored_twice as [E1 E2].
  split; [exact E1|]. split; [exact E2|]. split.
  - apply (reachable_insert [nan_row] nan_batch 1); [|exact E2].
    apply (reachable_insert [] nan_batch 1); [apply reachable_init | exact E1].
  - intros U.
    specialize (U 0%nat 1%nat nan_row nan_row eq_refl eq_refl).
    assert (K : same_key nan_row nan_row) by (repeat split).
    specialize (U K). discriminate.
Qed.

Lemma C2_witness :
  exists report2,
    weather_report f_47_5 f_8_5 sample_reply sample_table
    = Ok (report2, sample_table)
    /\ db_inserted_rows report2 = 0
    /\ requested_records report2 = requested_records sample_report.
Proof.
  apply (C2_second_ingest_inserts_nothing f_47_5 f_8_5 sample_reply []
           sample_report sample_table); reflexivity.
Defined.

(** C2 as worded fails at a NaN latitude: the second ingest inserts the
    three rows again. *)
Lemma C2_counterexample :
  ~ ingest_idempotent S754_nan f_8_5 sample_reply [].
Proof.
  intros H.
  destruct nan_ingest_inserts_again as [E1 E2].
  destruct (H _ _ E1) as [report2 [db2 [E2' [Z0 _]]]].
  rewrite E2 in E2'. injection E2' as <- <-.
  discriminate Z0.
Qed.

Lemma C3_witness :
  exists res,
    fetch_last_48h None None midnight_reading boundary_table = Ok res
    /\ ~ In (stored_row "2024-01-01T00:00" f_21_25 f_47_5 f_47_5 f_8_5) res
    /\ ~ window_of_instants midnight_reading boundary_table.
Proof.
  apply (C3_row_in_window_left_out midnight_reading
           (mk_datetime 2024 1 1 0 0 0 500000) boundary_table
           (stored_row "2024-01-01T00:00" f_21_25 f_47_5 f_47_5 f_8_5)
           (ymd2ord 2024 1 1 * 86400)).
  - reflexivity.
  - left. reflexivity.
  - reflexivity.
  - vm_compute. discriminate.
  - reflexivity.
Defined.

Lemma C4_witness :
  sequence_missing no_time_data = true
  /\ hourly_shaped no_time_data = true
  /\ weather_report f_47_5 f_8_5 (Reply 200 (Some (JObj no_time_data))) sample_table
     = Ok (mk_ingest_report stored_message (f_47_5, f_8_5) 0 0, sample_table).
Proof.
  split; [reflexivity|]. split; [reflexivity|].
  exact (C4_missing_sequence f_47_5 f_8_5 no_time_data sample_table
           eq_refl eq_refl).
Defined.

(** C4 as worded fails: with the timestamps missing and the other two
    sequences there, the ingest succeeds. *)
Lemma C4_counterexample :
  ~ detects_missing_sequence f_47_5 f_8_5 no_time_data [].
Proof.
  intros H. destruct (H eq_refl) as [detail E].
  rewrite missing_time_ingest_succeeds in E. discriminate E.
Qed.



Lemma C6_witness :
  hourly_rows f_47_5 f_8_5 (JObj sample_hourly) = Ok sample_batch
  /\ weather_report f_47_5 f_8_5 sample_reply []
     = Ok (sample_report, sample_table).
Proof.
  destruct (C6_truncation_to_shortest f_47_5 f_8_5 sample_hourly
              [JStr "2024-01-02T00:00"; JStr "2024-01-02T01:00";
               JStr "2024-01-02T02:00"; JStr "2024-01-02T03:00";
               JStr "2024-01-02T04:00"]
              [JFloat f_21_25; JInt 21; JFloat f_8_5; JInt 20; JFloat f_21_25]
              [JInt 50; JFloat f_47_5; JInt 52]
              eq_refl eq_refl eq_refl)
    as [rows [H1 [H2 [H3 H4]]]].
  - simpl. intros v [<- | [<- | [<- | []]]]; discriminate.
  - simpl. intros v [<- | [<- | [<- | []]]]; discriminate.
  - assert (E : rows = sample_batch).
    { destruct (H3 0%nat) as (a0 & b0 & c0 & f0 & g0 & A0 & B0 & C0 & F0 & G0 & R0);
        [vm_compute; lia|].
      destruct (H3 1%nat) as (a1 & b1 & c1 & f1 & g1 & A1 & B1 & C1 & F1 & G1 & R1);
        [vm_compute; lia|].
      destruct (H3 2%nat) as (a2 & b2 & c2 & f2 & g2 & A2 & B2 & C2 & F2 & G2 & R2);
        [vm_compute; lia|].
      injection A0 as <-. injection B0 as <-. injection C0 as <-.
      injection A1 as <-. injection B1 as <-. injection C1 as <-.
      injection A2 as <-. injection B2 as <-. injection C2 as <-.
      vm_compute in F0, G0, F1, G1, F2, G2.
      injection F0 as <-. injection G0 as <-. injection F1 as <-.
      injection G1 as <-. injection F2 as <-. injection G2 as <-.
      destruct rows as [|r0 [|r1 [|r2 [|r3 rows]]]]; try discriminate H2.
      injection R0 as ->. injection R1 as ->. injection R2 as ->.
      vm_compute. reflexivity. }
    subst rows. split; [exact H1|].
    unfold sample_reply. rewrite (H4 sample_data [] eq_refl).
    vm_compute. reflexivity.
Defined.

(** C6 as worded fails: three lists of length 1 with a temperature that
    is [null] give no record, the comprehension raises. *)
Lemma C6_counterexample :
  ~ truncates_to_shortest f_47_5 f_8_5 null_temperature_hourly.
Proof.
  intros H. destruct (H _ _ _ eq_refl eq_refl eq_refl) as [rows [E _]].
  rewrite null_temperature_builds_no_record in E. discriminate E.
Qed.

Lemma C7_witness :
  exists resp,
    export_pdf (Some f_47_5) (Some f_8_5) midnight_reading later_reading
      stale_table = Ok resp
    /\ content resp = empty_story
    /\ has_chart (content resp) = false.
Proof.
  exact (C7_empty_window_report (Some f_47_5) (Some f_8_5) midnight_reading
           later_reading stale_table eq_refl).
Defined.

Lemma C8_witness :
  exists resp,
    export_pdf None None midnight_reading later_reading equator_table = Ok resp
    /\ line_of "<b>Date range:</b>" (content resp)
       = Some "<b>Date range:</b> 2024-01-01 00:00 UTC to 2024-01-03 00:00 UTC".
Proof.
  exact (C8_date_range_from_clock None None midnight_reading later_reading
           equator_table
           (stored_row "2024-01-02T12:00" f_21_25 f_47_5 f_zero f_8_5)
           [stored_row "2024-01-02T13:00" f_8_5 f_47_5 f_47_5 f_8_5]
           (mk_datetime 2024 1 1 0 0 1 250) eq_refl eq_refl).
Defined.

(** The failing input of C9: the report for latitude 0.0, longitude 8.5
    holds the one row of that location and names "All locations". *)
Lemma C9_witness :
  fetch_last_48h (Some f_zero) (Some f_8_5) midnight_reading equator_table
  = Ok [stored_row "2024-01-02T12:00" f_21_25 f_47_5 f_zero f_8_5]
  /\ exists resp,
       export_pdf (Some f_zero) (Some f_8_5) midnight_reading later_reading
         equator_table = Ok resp
       /\ line_of "<b>Location:</b>" (content resp)
          = Some "<b>Location:</b> All locations".
Proof.
  split; [reflexivity|].
  exact (C9_zero_coordinate_reads_all_locations f_zero f_8_5 midnight_reading
           later_reading equator_table
           (stored_row "2024-01-02T12:00" f_21_25 f_47_5 f_zero f_8_5) []
           (mk_datetime 2024 1 1 0 0 1 250) eq_refl eq_refl eq_refl).
Defined.

Lemma C10_witness :
  0 <= db_inserted_rows sample_report <= requested_records sample_report.
Proof.
  exact (C10_inserted_at_most_requested f_47_5 f_8_5 sample_reply []
           sample_report sample_table eq_refl).
Defined.

(** * Further properties *)

(** ** The clock and the start of the window *)

Lemma days_before_year_bounds (y : Z) :
  2 <= y <= 9999 -> 365 <= days_before_year y <= 3651695.
Proof.
  intros H. unfold days_before_year. cbv zeta.
  Z.div_mod_to_equations. lia.
Qed.

Lemma days_before_month_bounds (y m : Z) :
  1 <= m <= 12 -> 0 <= days_before_month y m <= 335.
Proof.
  intros H.
  assert (C : m = 1 \/ m = 2 \/ m = 3 \/ m = 4 \/ m = 5 \/ m = 6 \/ m = 7
              \/ m = 8 \/ m = 9 \/ m = 10 \/ m = 11 \/ m = 12) by lia.
  unfold days_before_month.
  repeat (destruct C as [-> | C]); [.. | subst m];
    destruct (is_leap y); vm_compute; split; discriminate.
Qed.

Lemma after_year_one_fields (d : datetime) :
  after_year_one d = true ->
  2 <= year d <= 9999 /\ 1 <= month d <= 12 /\ 1 <= day d <= 31
  /\ time_in_range d = true.
Proof.
  unfold after_year_one, time_in_range. rewrite !andb_true_iff.
  rewrite !Z.leb_le, !Z.ltb_lt. intuition lia.
Qed.

Lemma time_in_range_fields (d : datetime) :
  time_in_range d = true ->
  0 <= hour d < 24 /\ 0 <= minute d < 60 /\ 0 <= second d < 60.
Proof.
  unfold time_in_range. rewrite !andb_true_iff.
  rewrite !Z.leb_le, !Z.ltb_lt. intuition lia.
Qed.

Lemma sub_hours_48_succeeds (d : datetime) :
  after_year_one d = true -> exists since, sub_hours d 48 = Ok since.
Proof.
  intros H. apply after_year_one_fields in H.
  destruct H as [Hy [Hm [Hd Ht]]]. apply time_in_range_fields in Ht.
  pose proof (days_before_year_bounds (year d) Hy) as By.
  pose proof (days_before_month_bounds (year d) (month d) Hm) as Bm.
  unfold sub_hours, toordinal, ymd2ord, MAXORDINAL.
  set (secs := hour d * 3600 + minute d * 60 + second d - 48 * 3600).
  assert (Es : secs / 86400 = -2)
    by (subst secs; Z.div_mod_to_equations; lia).
  rewrite Es.
  set (days := days_before_year (year d) + days_before_month (year d) (month d)
               + day d + -2).
  assert (Hdays : (0 <? days) && (days <=? 3652059) = true).
  { apply andb_true_iff. rewrite Z.ltb_lt, Z.leb_le. subst days. lia. }
  rewrite Hdays. destruct (ord2ymd days) as [[y m] dd]. eauto.
Qed.

Lemma sub_hours_48_time_of_day (d since : datetime) :
  time_in_range d = true ->
  sub_hours d 48 = Ok since ->
  hour since = hour d /\ minute since = minute d /\ second since = second d
  /\ microsecond since = microsecond d.
Proof.
  intros Ht H. apply time_in_range_fields in Ht. unfold sub_hours in H.
  set (secs := hour d * 3600 + minute d * 60 + second d - 48 * 3600) in *.
  destruct ((0 <? toordinal d + secs / 86400)
            && (toordinal d + secs / 86400 <=? MAXORDINAL)); [|discriminate].
  destruct (ord2ymd (toordinal d + secs / 86400)) as [[y m] dd].
  injection H as <-. cbn [hour minute second microsecond].
  assert (Em : secs mod 86400 = hour d * 3600 + minute d * 60 + second d)
    by (subst secs; Z.div_mod_to_equations; lia).
  rewrite Em. repeat split; Z.div_mod_to_equations; lia.
Qed.

(** ** The window query with and without a location *)

Lemma filter_none {A : Type} (p : A -> bool) (l : list A) :
  (forall x, In x l -> p x = false) -> filter p l = [].
Proof.
  induction l as [|a l IH]; simpl; intros H; [reflexivity|].
  rewrite (H a) by auto. apply IH. auto.
Qed.

Lemma select_since_at_spec (since_iso : string) (la lo : float) (db : table) :
  Permutation (select_since_at since_iso la lo db)
    (window_rows since_iso (Some la) (Some lo) db)
  /\ ascending (select_since_at since_iso la lo db).
Proof.
  unfold select_since_at, window_rows, ascending. split.
  - apply Permutation_sym.
    erewrite filter_ext; [apply RowSort.Permuted_sort|].
    intros r. unfold in_window, location_matches, at_location.
    apply andb_assoc.
  - apply (RowSort.StronglySorted_sort _ row_leb_transitive).
Qed.

(** What [fetch_last_48h] returns once the start of the window is known. *)
Lemma fetch_last_48h_spec (lat lon : option float) (now_utc since : datetime)
    (db : table) :
  sub_hours now_utc 48 = Ok since ->
  exists res,
    fetch_last_48h lat lon now_utc db = Ok res
    /\ Permutation res (window_rows (window_start since) lat lon db)
    /\ ascending res.
Proof.
  intros Hs. unfold fetch_last_48h. rewrite Hs. cbn [bind].
  fold (window_start since).
  destruct lat as [la|]; [destruct lon as [lo|]|].
  - eexists. split; [reflexivity|]. apply select_since_at_spec.
  - eexists. split; [reflexivity|].
    destruct (select_since_spec (window_start since) db) as [P S].
    split; [|exact S]. etransitivity; [exact P|].
    unfold window_rows. erewrite filter_ext; [reflexivity|].
    intros r. unfold in_window, location_matches. simpl.
    rewrite andb_true_r. reflexivity.
  - eexists. split; [reflexivity|].
    destruct (select_since_spec (window_start since) db) as [P S].
    split; [|exact S]. etransitivity; [exact P|].
    unfold window_rows. erewrite filter_ext; [reflexivity|].
    intros r. unfold in_window, location_matches. simpl.
    rewrite andb_true_r. reflexivity.
Qed.

Lemma at_location_cells (la lo : float) (r : row) :
  at_location la lo r = true ->
  exists x y,
    latitude r = Some x /\ longitude r = Some y
    /\ SFeqb x la = true /\ SFeqb y lo = true
    /\ is_nan la = false /\ is_nan lo = false.
Proof.
  unfold at_location. rewrite andb_true_iff, !real_cell_bind_float.
  destruct (latitude r) as [x|], (longitude r) as [y|],
           (is_nan la), (is_nan lo); simpl; intros [H1 H2];
    try discriminate.
  exists x, y. repeat split; assumption.
Qed.

(** X1: with both coordinates given, the window query returns exactly the
    stored rows that are in the window and whose latitude and longitude
    equal the given numbers, each as often as it is stored, in ascending
    order of the timestamp; every such row is also in the window without
    a filter. *)
Theorem X1_location_filter :
  forall la lo now_utc since db,
    sub_hours now_utc 48 = Ok since ->
    exists res,
      fetch_last_48h (Some la) (Some lo) now_utc db = Ok res
      /\ Permutation res
           (filter (fun r => in_window (window_start since) r
                             && at_location la lo r) db)
      /\ ascending res
      /\ (forall r, In r res ->
            exists x y,
              latitude r = Some x /\ longitude r = Some y
              /\ SFeqb x la = true /\ SFeqb y lo = true)
      /\ exists all,
           fetch_last_48h None None now_utc db = Ok all /\ incl res all.
Proof.
  intros la lo now_utc since db Hs.
  destruct (fetch_last_48h_spec (Some la) (Some lo) _ _ db Hs) as [res [E [P S]]].
  destruct (fetch_last_48h_spec None None _ _ db Hs) as [all [E' [P' _]]].
  exists res. split; [exact E|]. split; [exact P|]. split; [exact S|].
  assert (F : forall r, In r res ->
                In r db /\ in_window (window_start since) r = true
                /\ at_location la lo r = true).
  { intros r Hr. apply (Permutation_in _ P) in Hr.
    unfold window_rows in Hr. apply filter_In in Hr.
    destruct Hr as [Hin Hp]. apply andb_true_iff in Hp. tauto. }
  split.
  - intros r Hr. destruct (F r Hr) as [_ [_ Hl]].
    destruct (at_location_cells _ _ _ Hl) as [x [y ?]].
    exists x, y. tauto.
  - exists all. split; [exact E'|]. intros r Hr.
    destruct (F r Hr) as [Hin [Hw _]].
    apply (Permutation_in _ (Permutation_sym P')).
    unfold window_rows. apply filter_In. split; [exact Hin|].
    rewrite Hw. reflexivity.
Qed.

(** X3: the sheet of the spreadsheet export has the five columns and one
    record per row of the window: exactly the stored rows that are in the
    window and pass the location test, each as often as it is stored, in
    ascending order of the timestamp, written without an index on the
    sheet "weather".  An empty window gives a sheet with no record. *)
Theorem X3_sheet_is_the_window :
  forall lat lon now_utc since db,
    sub_hours now_utc 48 = Ok since ->
    exists resp,
      export_excel lat lon now_utc db = Ok resp
      /\ columns (sheet resp) = excel_columns
      /\ sheet_name resp = "weather"
      /\ with_index resp = false
      /\ fetch_last_48h lat lon now_utc db = Ok (records (sheet resp))
      /\ Permutation (records (sheet resp))
           (window_rows (window_start since) lat lon db)
      /\ ascending (records (sheet resp))
      /\ (window_rows (window_start since) lat lon db = [] ->
          records (sheet resp) = []).
Proof.
  intros lat lon now_utc since db Hs.
  destruct (fetch_last_48h_spec lat lon _ _ db Hs) as [res [E [P S]]].
  unfold export_excel. rewrite E. cbn [bind].
  eexists. split; [reflexivity|].
  cbn [sheet columns records sheet_name with_index].
  repeat split; try assumption.
  intros H0. rewrite H0 in P. apply Permutation_sym, Permutation_nil in P.
  exact P.
Qed.

(** X4: for every reading of the clock from year 2 on, the window query
    returns normally, whatever the table and the location are: the
    subtraction of 48 hours stays in the range of [datetime]. *)
Theorem X4_query_never_fails :
  forall lat lon now_utc db,
    after_year_one now_utc = true ->
    exists rows, fetch_last_48h lat lon now_utc db = Ok rows.
Proof.
  intros lat lon now_utc db H.
  destruct (sub_hours_48_succeeds _ H) as [since Hs].
  destruct (fetch_last_48h_spec lat lon _ _ db Hs) as [res [E _]].
  eauto.
Qed.

Section FurtherReports.

Context {rt : Runtime}.

(** X2: a query for a location with a NaN coordinate matches no row,
    whatever is stored: the window is empty, the sheet has no record and
    the document is the one that says there is no data. *)
Theorem X2_nan_location_matches_nothing :
  forall la lo now_utc utcnow since db,
    is_nan la || is_nan lo = true ->
    sub_hours now_utc 48 = Ok since ->
    fetch_last_48h (Some la) (Some lo) now_utc db = Ok []
    /\ (exists sheet_resp,
          export_excel (Some la) (Some lo) now_utc db = Ok sheet_resp
          /\ records (sheet sheet_resp) = [])
    /\ exists resp,
         export_pdf (Some la) (Some lo) now_utc utcnow db = Ok resp
         /\ content resp = empty_story.
Proof.
  intros la lo now_utc utcnow since db Hn Hs.
  destruct (fetch_last_48h_spec (Some la) (Some lo) _ _ db Hs) as [res [E [P _]]].
  assert (W : window_rows (window_start since) (Some la) (Some lo) db = []).
  { apply filter_none. intros r _.
    unfold location_matches, at_location. rewrite !real_cell_bind_float.
    apply orb_true_iff in Hn.
    destruct Hn as [-> | ->];
      destruct (latitude r), (longitude r), (is_nan la), (is_nan lo);
      simpl; rewrite ?andb_false_r; reflexivity. }
  rewrite W in P. apply Permutation_sym, Permutation_nil in P. subst res.
  split; [exact E|]. split.
  - unfold export_excel. rewrite E. cbn [bind]. eexists. split; reflexivity.
  - unfold export_pdf. rewrite E. cbn [bind]. eexists. split; reflexivity.
Qed.

End FurtherReports.

(** X6: the start of the window printed and queried is the reading of
    the clock two days back at the same time of day: the subtraction of
    48 hours keeps hour, minute, second and microsecond. *)
Theorem X6_window_start_keeps_time_of_day :
  forall now since,
    time_in_range now = true ->
    sub_hours now 48 = Ok since ->
    hour since = hour now /\ minute since = minute now
    /\ second since = second now /\ microsecond since = microsecond now
    /\ time_in_range since = true.
Proof.
  intros now since Ht Hs.
  destruct (sub_hours_48_time_of_day now since Ht Hs) as [Hh [Hm [Hsec Hu]]].
  repeat split; try assumption.
  unfold time_in_range in *. rewrite Hh, Hm, Hsec. exact Ht.
Qed.

Section FurtherStore.

Context {rt : Runtime}.

(** ** The batch insert on any table *)

Lemma executemany_grows :
  forall rows t c t' c',
    executemany rows t c = Ok (t', c') ->
    exists added,
      t' = (t ++ added)%list
      /\ c' = c + Z.of_nat (List.length added)
      /\ (List.length added <= List.length rows)%nat
      /\ Forall (from_batch rows) added.
Proof.
  induction rows as [|[[[[ts temp] hum] la] lo] rows IH]; simpl;
    intros t c t' c' H.
  - injection H as <- <-. exists []. rewrite app_nil_r. simpl.
    split; [reflexivity|]. split; [lia|]. split; [lia | constructor].
  - bind_inv H. destruct (insert_or_ignore a temp hum la lo t) as [t1 n] eqn:E.
    apply insert_or_ignore_cases in E.
    destruct (IH _ _ _ _ H) as [added [-> [-> [Hl HF]]]].
    assert (HF' : Forall (from_batch ((ts, temp, hum, la, lo) :: rows)) added).
    { eapply Forall_impl; [|exact HF].
      intros new (ts' & temp' & hum' & la' & lo' & v & s & Hin & Hb & Hc & ->).
      exists ts', temp', hum', la', lo', v, s.
      split; [right; exact Hin | auto]. }
    destruct E as [[-> [-> _]] | [s [Hs [-> [-> _]]]]].
    + exists added. split; [reflexivity|]. split; [lia|]. split; [lia|].
      exact HF'.
    + exists (stored_row s temp hum la lo :: added).
      rewrite <- app_assoc. split; [reflexivity|].
      split; [simpl List.length; lia|]. split; [simpl; lia|].
      constructor; [|exact HF'].
      exists ts, temp, hum, la, lo, a, s.
      split; [left; reflexivity | auto].
Qed.

Lemma executemany_error :
  forall rows t c e,
    executemany rows t c = Raise e -> e = OverflowError \/ e = BindError.
Proof.
  induction rows as [|[[[[ts temp] hum] la] lo] rows IH]; simpl;
    intros t c e H; [discriminate|].
  destruct (bind_param ts) as [v|e'] eqn:B; cbn [bind] in H.
  - destruct (insert_or_ignore v temp hum la lo t) as [t1 n]. eauto.
  - injection H as <-. unfold bind_param in B.
    destruct ts; try discriminate B.
    + destruct ((- 2 ^ 63 <=? n) && (n <? 2 ^ 63)); [discriminate B|].
      injection B as <-. auto.
    + injection B as <-. auto.
    + injection B as <-. auto.
Qed.


(** X8: a key that comes twice in one batch is stored once: a batch of
    records with number coordinates followed by the same batch again does
    to the table, and reports, what the batch alone does. *)
Theorem X8_repeated_batch_stored_once :
  forall rows db,
    Forall has_location rows ->
    insert_weather_rows (rows ++ rows) db = insert_weather_rows rows db.
Proof.
  intros rows db HF. unfold insert_weather_rows. f_equal.
  rewrite executemany_app.
  destruct (executemany rows db 0) as [[t c]|e] eqn:E; cbn [bind];
    [|reflexivity].
  apply (executemany_again _ _ _ _ _ E HF). apply incl_refl.
Qed.

(** X11: records whose timestamp is [None] are counted as requested and
    never stored: the number inserted is at most the number of records
    with a timestamp, and a batch that has only such records leaves the
    table as it is and inserts nothing. *)
Theorem X11_null_timestamps_never_stored :
  forall rows db,
    (forall n db',
        insert_weather_rows rows db = Ok (n, db') ->
        n <= Z.of_nat (List.length
                         (filter (fun r => negb (null_timestamp r)) rows))
        /\ forall new, In new db' -> In new db \/ from_batch rows new)
    /\ (forallb null_timestamp rows = true ->
        insert_weather_rows rows db = Ok (0, db)).
Proof.
  intros rows db. split.
  - assert (G : forall rows t c t' c',
               executemany rows t c = Ok (t', c') ->
               c' <= c + Z.of_nat
                           (List.length
                              (filter (fun r => negb (null_timestamp r)) rows))).
    { clear. induction rows as [|[[[[ts temp] hum] la] lo] rows IH];
        intros t c t' c' H; cbn [executemany] in H.
      - injection H as <- <-. simpl. lia.
      - bind_inv H.
        destruct (insert_or_ignore a temp hum la lo t) as [t1 n] eqn:E.
        apply IH in H. apply insert_or_ignore_cases in E.
        cbn [filter].
        destruct (null_timestamp (ts, temp, hum, la, lo)) eqn:N;
          cbn [negb List.length].
        + destruct ts; try discriminate N. injection Ha as <-.
          destruct E as [[_ [-> _]] | [s [Hs _]]]; [lia | discriminate Hs].
        + destruct E as [[_ [-> _]] | [s [_ [_ [-> _]]]]]; lia. }
    intros n db' H. unfold insert_weather_rows in H. bind_inv H.
    destruct a as [t c]. injection H as <- <-.
    split; [apply G in Ha; lia|].
    destruct (executemany_grows _ _ _ _ _ Ha) as [added [-> [_ [_ HF]]]].
    intros new Hin. apply in_app_or in Hin. rewrite Forall_forall in HF.
    destruct Hin; auto.
  - intros H. unfold insert_weather_rows.
    assert (G : forall rows t c,
               forallb null_timestamp rows = true ->
               executemany rows t c = Ok (t, c)).
    { clear. induction rows as [|[[[[ts temp] hum] la] lo] rows IH];
        simpl; intros t c H; [reflexivity|].
      apply andb_true_iff in H. destruct H as [Hn Hr].
      destruct ts; try discriminate. cbn. rewrite Z.add_0_r. auto. }
    rewrite (G rows db 0 H). reflexivity.
Qed.

End FurtherStore.

Section FurtherIngest.

Context {rt : Runtime}.

(** ** The errors of the ingest *)

Lemma bind_Raise {A B : Type} (m : result A) (k : A -> result B) (e : exn) :
  bind m k = Raise e -> m = Raise e \/ exists a, m = Ok a /\ k a = Raise e.
Proof.
  destruct m as [a|e']; simpl; intros H; [eauto|].
  injection H as <-. left. reflexivity.
Qed.

Lemma comprehension_Raise {A B : Type} (f : A -> result B) :
  forall xs e, comprehension f xs = Raise e -> exists x, f x = Raise e.
Proof.
  induction xs as [|x xs IH]; simpl; intros e H; [discriminate|].
  apply bind_Raise in H. destruct H as [H | [y [_ H]]]; [eauto|].
  apply bind_Raise in H. destruct H as [H | [ys [_ H]]]; [eauto | discriminate].
Qed.

Lemma py_get_not_http (d : pyval) (k : string) (default : pyval) (e : exn) :
  py_get d k default = Raise e -> is_http e = false.
Proof.
  unfold py_get. destruct d; try (intros H; injection H as <-; reflexivity).
  destruct (lookup k items); discriminate.
Qed.

Lemma py_len_not_http (v : pyval) (e : exn) :
  py_len v = Raise e -> is_http e = false.
Proof.
  destruct v; simpl; intros H; try discriminate H;
    injection H as <-; reflexivity.
Qed.

Lemma py_index_not_http (v : pyval) (i : nat) (e : exn) :
  py_index v i = Raise e -> is_http e = false.
Proof.
  destruct v; simpl; try (intros H; injection H as <-; reflexivity).
  - destruct (String.get i s); intros H; [discriminate|].
    injection H as <-. reflexivity.
  - destruct (nth_error items i); intros H; [discriminate|].
    injection H as <-. reflexivity.
Qed.

Lemma py_float_not_http (v : pyval) (e : exn) :
  py_float v = Raise e -> is_http e = false.
Proof.
  destruct v; simpl; try (intros H; injection H as <-; reflexivity);
    try discriminate.
  - unfold float_of_int. destruct (float_of_scaled n 0); intros H;
      try discriminate H. injection H as <-. reflexivity.
  - destruct (float_of_str s); intros H; [discriminate|].
    injection H as <-. reflexivity.
Qed.

Lemma hourly_rows_not_http (lat lon : float) (hourly : pyval) (e : exn) :
  hourly_rows lat lon hourly = Raise e -> is_http e = false.
Proof.
  unfold hourly_rows. intros H.
  repeat (apply bind_Raise in H;
          destruct H as [H | [? [_ H]]];
          [first [eapply py_get_not_http; eassumption
                 | eapply py_len_not_http; eassumption]|]).
  apply comprehension_Raise in H. destruct H as [i H].
  apply bind_Raise in H.
  destruct H as [H | [? [_ H]]]; [eapply py_index_not_http; eassumption|].
  apply bind_Raise in H.
  destruct H as [H | [? [_ H]]]; [eapply py_index_not_http; eassumption|].
  apply bind_Raise in H.
  destruct H as [H | [? [_ H]]]; [eapply py_float_not_http; eassumption|].
  apply bind_Raise in H.
  destruct H as [H | [? [_ H]]]; [eapply py_index_not_http; eassumption|].
  apply bind_Raise in H.
  destruct H as [H | [? [_ H]]]; [eapply py_float_not_http; eassumption|].
  discriminate H.
Qed.

(** X9: the only errors the ingest raises for the client are two 502s:
    one for an answer of the provider with a status other than 200, which
    it always raises then, naming the status, and one for an answer with
    status 200 that is an object whose [hourly] is missing or empty.
    Every other failure is an exception of the interpreter or of
    sqlite3. *)
Theorem X9_ingest_http_errors :
  forall lat lon reply db,
    (forall status json,
        reply = Reply status json -> status <> 200 ->
        weather_report lat lon reply db
        = Raise (HTTPException 502
                   ("Open-Meteo API error: " ++ str_of_int status)))
    /\ (forall code detail,
          weather_report lat lon reply db = Raise (HTTPException code detail) ->
          code = 502
          /\ ((exists status json,
                 reply = Reply status json /\ status <> 200
                 /\ detail = "Open-Meteo API error: " ++ str_of_int status)
              \/ (exists items,
                    reply = Reply 200 (Some (JObj items))
                    /\ truthy (hourly_of items) = false
                    /\ detail = "Open-Meteo response missing 'hourly' key."))).
Proof.
  intros lat lon reply db. split.
  - intros status json -> Hs. unfold weather_report, fetch_open_meteo.
    apply Z.eqb_neq in Hs. rewrite Hs. reflexivity.
  - intros code detail H. unfold weather_report in H.
    apply bind_Raise in H. destruct H as [H | [data [Hd H]]].
    + unfold fetch_open_meteo in H.
      destruct reply as [|status json]; [discriminate|].
      destruct (status =? 200) eqn:Es; cbn [negb] in H.
      * destruct json; discriminate.
      * injection H as <- <-. split; [reflexivity|]. left.
        exists status, json. apply Z.eqb_neq in Es. auto.
    + unfold fetch_open_meteo in Hd.
      destruct reply as [|status json]; [discriminate|].
      destruct (status =? 200) eqn:Es; cbn [negb] in Hd; [|discriminate].
      apply Z.eqb_eq in Es. subst status.
      destruct json as [data'|]; [|discriminate]. injection Hd as ->.
      apply bind_Raise in H. destruct H as [H | [hourly [Hh H]]].
      { apply py_get_not_http in H. discriminate. }
      destruct data as [| | | | | |items]; try discriminate Hh.
      rewrite py_get_hourly in Hh. injection Hh as <-.
      destruct (truthy (hourly_of items)) eqn:T; cbn [negb] in H.
      * exfalso. apply bind_Raise in H. destruct H as [H | [rows [_ H]]].
        { apply hourly_rows_not_http in H. discriminate. }
        apply bind_Raise in H. destruct H as [H | [[n t] [_ H]]];
          [|discriminate].
        unfold insert_weather_rows in H. apply bind_Raise in H.
        destruct H as [H | [[t c] [_ H]]]; [|discriminate].
        apply executemany_error in H. destruct H; discriminate.
      * injection H as <- <-. split; [reflexivity|]. right.
        exists items. auto.
Qed.

(** ** From the ingest to the query *)

Lemma conflicts_self (s : string) (temp hum la lo : float) :
  is_nan la = false -> is_nan lo = false ->
  conflicts (stored_row s temp hum la lo) (stored_row s temp hum la lo) = true.
Proof.
  intros Hla Hlo. unfold conflicts, stored_row. simpl.
  rewrite String.eqb_refl, !stored_cell_cases, Hla, Hlo. simpl.
  rewrite !SFeqb_refl by (rewrite is_nan_real_as_stored; assumption).
  reflexivity.
Qed.

Lemma executemany_finds :
  forall rows t c t' c' ts temp hum la lo v s,
    executemany rows t c = Ok (t', c') ->
    In (ts, temp, hum, la, lo) rows ->
    bind_param ts = Ok v -> text_cell v = Some s ->
    is_nan la = false -> is_nan lo = false ->
    exists old,
      In old t' /\ conflicts old (stored_row s temp hum la lo) = true.
Proof.
  induction rows as [|[[[[ts0 temp0] hum0] la0] lo0] rows IH]; simpl;
    intros t c t' c' ts temp hum la lo v s H Hin Hb Hc Hla Hlo;
    [contradiction|].
  bind_inv H. destruct (insert_or_ignore a temp0 hum0 la0 lo0 t) as [t1 n] eqn:E.
  destruct Hin as [Heq | Hin]; [|eauto].
  injection Heq as -> -> -> -> ->.
  rewrite Hb in Ha. injection Ha as <-.
  pose proof (executemany_incl _ _ _ _ _ H) as Hincl.
  apply insert_or_ignore_cases in E.
  destruct E as [[-> [_ [Hn | [s' [Hs' Hex]]]]] | [s' [Hs' [-> _]]]].
  - congruence.
  - assert (s' = s) by congruence. subst s'.
    apply existsb_exists in Hex. destruct Hex as [old [Ho Hcf]].
    exists old. auto.
  - assert (s' = s) by congruence. subst s'.
    exists (stored_row s temp hum la lo). split.
    + apply Hincl, in_or_app. right. left. reflexivity.
    + apply conflicts_self; assumption.
Qed.

(** X12: what was ingested is found: after a batch insert that
    succeeded, for every record of the batch with a text timestamp at or
    after the start of the window and with number coordinates, the window
    query for those coordinates returns a row with that timestamp at that
    location. *)
Theorem X12_inserted_records_are_found :
  forall rows db n db' s temp hum la lo now_utc since,
    insert_weather_rows rows db = Ok (n, db') ->
    In (JStr s, temp, hum, la, lo) rows ->
    is_nan la = false -> is_nan lo = false ->
    sub_hours now_utc 48 = Ok since ->
    String.leb (window_start since) s = true ->
    exists res r,
      fetch_last_48h (Some la) (Some lo) now_utc db' = Ok res
      /\ In r res
      /\ timestamp r = s
      /\ at_location la lo r = true.
Proof.
  intros rows db n db' s temp hum la lo now_utc since H Hin Hla Hlo Hs Hw.
  unfold insert_weather_rows in H. bind_inv H.
  destruct a as [t c]. injection H as <- <-.
  destruct (executemany_finds _ _ _ _ _ _ _ _ _ _ (SqlText s) s Ha Hin
              eq_refl eq_refl Hla Hlo) as [old [Ho Hc]].
  unfold conflicts in Hc. rewrite !andb_true_iff in Hc.
  destruct Hc as [[Ht Hclat] Hclon]. apply String.eqb_eq in Ht.
  cbn [timestamp latitude longitude stored_row] in Ht, Hclat, Hclon.
  destruct (fetch_last_48h_spec (Some la) (Some lo) _ _ t Hs) as [res [E [P _]]].
  exists res, old. split; [exact E|].
  assert (L : at_location la lo old = true).
  { unfold at_location. rewrite <- !real_eq_stored_cell, Hclat, Hclon.
    reflexivity. }
  split; [|split; [exact Ht | exact L]].
  apply (Permutation_in _ (Permutation_sym P)).
  unfold window_rows. apply filter_In. split; [exact Ho|].
  unfold in_window, location_matches. rewrite Ht, Hw, L. reflexivity.
Qed.

End FurtherIngest.

(** ** Witnesses of the further properties *)

Lemma X1_witness :
  exists res,
    fetch_last_48h (Some f_47_5) (Some f_8_5) midnight_reading two_places_table
    = Ok res
    /\ Permutation res
         [stored_row "2024-01-02T13:00" f_8_5 f_47_5 f_47_5 f_8_5;
          stored_row "2024-01-02T11:00" f_21_25 f_47_5 f_47_5 f_8_5]
    /\ ascending res.
Proof.
  destruct (X1_location_filter f_47_5 f_8_5 midnight_reading
              window_start_reading two_places_table eq_refl)
    as [res [E [P [S _]]]].
  exists res. split; [exact E|]. split; [exact P | exact S].
Defined.

Lemma X2_witness :
  fetch_last_48h (Some S754_nan) (Some f_8_5) midnight_reading nan_table = Ok []
  /\ (exists sheet_resp,
        export_excel (Some S754_nan) (Some f_8_5) midnight_reading nan_table
        = Ok sheet_resp
        /\ records (sheet sheet_resp) = [])
  /\ exists resp,
       export_pdf (Some S754_nan) (Some f_8_5) midnight_reading later_reading
         nan_table = Ok resp
       /\ content resp = empty_story.
Proof.
  exact (X2_nan_location_matches_nothing S754_nan f_8_5 midnight_reading
           later_reading window_start_reading nan_table eq_refl eq_refl).
Defined.

Lemma X3_witness :
  exists resp,
    export_excel None None midnight_reading two_places_table = Ok resp
    /\ columns (sheet resp) = excel_columns
    /\ Permutation (records (sheet resp))
         [stored_row "2024-01-02T13:00" f_8_5 f_47_5 f_47_5 f_8_5;
          stored_row "2024-01-02T12:00" f_21_25 f_47_5 f_zero f_8_5;
          stored_row "2024-01-02T11:00" f_21_25 f_47_5 f_47_5 f_8_5]
    /\ ascending (records (sheet resp)).
Proof.
  destruct (X3_sheet_is_the_window None None midnight_reading
              window_start_reading two_places_table eq_refl)
    as [resp [E [C [_ [_ [_ [P [S _]]]]]]]].
  exists resp. split; [exact E|]. split; [exact C|]. split; [exact P | exact S].
Defined.

Lemma X4_witness :
  exists rows,
    fetch_last_48h (Some f_zero) None midnight_reading two_places_table
    = Ok rows.
Proof.
  exact (X4_query_never_fails (Some f_zero) None midnight_reading
           two_places_table eq_refl).
Defined.

Lemma X6_witness :
  hour window_start_reading = hour midnight_reading
  /\ minute window_start_reading = minute midnight_reading
  /\ second window_start_reading = second midnight_reading
  /\ microsecond window_start_reading = microsecond midnight_reading
  /\ time_in_range window_start_reading = true.
Proof.
  exact (X6_window_start_keeps_time_of_day midnight_reading
           window_start_reading eq_refl eq_refl).
Defined.


Lemma sample_batch_located : Forall has_location sample_batch.
Proof. repeat constructor. Defined.

Lemma X8_witness :
  insert_weather_rows (sample_batch ++ sample_batch) stale_table
  = insert_weather_rows sample_batch stale_table.
Proof.
  exact (X8_repeated_batch_stored_once sample_batch stale_table
           sample_batch_located).
Defined.

Lemma X12_witness :
  exists res r,
    fetch_last_48h (Some f_47_5) (Some f_8_5) midnight_reading sample_table
    = Ok res
    /\ In r res
    /\ timestamp r = "2024-01-02T01:00"
    /\ at_location f_47_5 f_8_5 r = true.
Proof.
  exact (X12_inserted_records_are_found sample_batch [] 3 sample_table
           "2024-01-02T01:00" (float_of_scaled 21 0) f_47_5 f_47_5 f_8_5
           midnight_reading window_start_reading
           eq_refl (or_intror (or_introl eq_refl)) eq_refl eq_refl eq_refl
           eq_refl).
Defined.
